(** * msgraph/service.go: delta synchronisation, attachments and error flattening

    A shallow embedding of package [msgraph] (file [msgraph/service.go]).

    The Microsoft Graph SDK and the remote mail API are not part of the
    package: they are taken as a record of operations over an abstract world
    [W] (the state of the remote mailbox and of the transport), threaded
    explicitly through every call.  A Go pointer [*T] is an [option T], with
    [None] for [nil]; dereferencing [nil] is the outcome [Panic].  A slice of
    messages or attachments is a [list] (a nil slice and an empty one are both
    [[]]); the [Content] bytes of an attachment keep the nil/non-nil
    distinction as an [option].  The two [for] loops of the package have no
    bound of their own, so they are given fuel: one unit per follow-up page
    request. *)

From Stdlib Require Import String List Bool Arith Lia.
From Stdlib Require Strings.Byte.
Import ListNotations.
Local Open Scope string_scope.
Local Open Scope list_scope.

(** ** Go errors *)

Module errors.

(** [odataerrors.MainError]: only [GetMessage] is read by the package. *)
Record MainError : Type := mkMainError {
  GetMessage : option string
}.

(** The [error] values that reach [parseError]:
    - [errorString s] is the value built by [errors.New s];
    - [ODataError e text] is an [*odataerrors.ODataError] whose [GetError()]
      is [e] and whose [Error()] text is [text];
    - [wrapError text inner] is any other error, with [Error()] text [text],
      whose [Unwrap()] is [inner]. *)
Inductive error : Type :=
| errorString (s : string)
| ODataError (e : option MainError) (text : string)
| wrapError (text : string) (inner : error).

(** [errors.New]. *)
Definition New (s : string) : error := errorString s.

(** The method [Error()]. *)
Definition Error (err : error) : string :=
  match err with
  | errorString s => s
  | ODataError _ text => text
  | wrapError text _ => text
  end.

(** [errors.As(err, &ode)] with [ode : *odataerrors.ODataError]: the first
    error of the [Unwrap] chain that is an [ODataError]; the result is its
    [GetError()]. *)
Fixpoint As (err : error) : option (option MainError) :=
  match err with
  | errorString _ => None
  | ODataError e _ => Some e
  | wrapError _ inner => As inner
  end.

End errors.
Import errors.

(** [parseError], service.go lines 208-223.  The [err] of the last line is the
    argument, not the [MainError] bound inside the [if]. *)
Definition parseError (err : option error) : option error :=
  match err with
  | None => None
  | Some e =>
      match As e with
      | Some (Some me) =>
          match GetMessage me with
          | Some m => Some (New m)
          | None => Some (New (Error e))
          end
      | _ => Some (New (Error e))
      end
  end.

(** ** Values of the SDK *)

(** [models.Messageable].  The package hands received messages on untouched
    and fills in three fields of the one it sends. *)
Record Message : Type := mkMessage {
  GetId : option string;
  GetSubject : option string;
  GetBodyContentType : option string;
  GetBodyContent : option string;
  GetToRecipients : list string
}.

(** [users.ItemMailFoldersItemMessagesMicrosoftGraphDeltaDeltaResponseable]:
    one page of a delta query. *)
Record DeltaResponse : Type := mkDeltaResponse {
  GetValue : list Message;
  GetOdataNextLink : option string;
  GetOdataDeltaLink : option string
}.

(** [models.Attachmentable], by its dynamic type: the type assertion
    [att.(models.FileAttachmentable)] succeeds on [fileAttachment] only. *)
Inductive Attachment : Type :=
| fileAttachment (GetName GetContentType : option string)
                 (GetContentBytes : option (list Byte.byte))
| itemAttachment (GetName : option string)
| referenceAttachment (GetName : option string).

(** [FileAttachment], service.go lines 226-230. *)
Record FileAttachment : Type := mkFileAttachment {
  Name : string;
  ContentType : string;
  Content : option (list Byte.byte)
}.

(** [Credentials], service.go lines 21-25. *)
Record Credentials : Type := mkCredentials {
  ClientID : string;
  ClientSecret : string;
  TenantID : string
}.

(** [abstractions.RequestInformation], as far as the package touches it. *)
Record RequestInformation : Type := mkRequestInformation {
  UrlTemplate : string;
  PathParameters : list (string * string)
}.

(** What a call into the SDK gives back: [(nil, err)] or [(value, nil)]. *)
Definition response (A : Type) : Type := (error + A)%type.

(** [msgraphsdk.GraphServiceClient] with the remote API behind it.  Every
    request takes the world and gives the next one. *)
Record GraphServiceClient (W : Type) : Type := mkGraph {
  (** [UsersById(u).MailFoldersById(f).Messages().MicrosoftGraphDelta()
      .ToGetRequestInformation(ctx, nil)] *)
  ToGetRequestInformation : string -> string -> response RequestInformation;
  (** [GetAdapter().Send(ctx, ri, factory, errorMapping)]; the value sent back
      is the one the factory builds, on which the type assertion of line 90
      succeeds *)
  Send : W -> RequestInformation -> response DeltaResponse * W;
  (** [users.NewItemMailFoldersItemMessagesMicrosoftGraphDeltaRequestBuilder
      (url, adapter).Get(ctx, nil)] *)
  DeltaGet : W -> string -> response DeltaResponse * W;
  (** [UsersById(u).MessagesById(m).Attachments().Get(ctx, nil)] *)
  AttachmentsGet : W -> string -> string -> response (list Attachment) * W;
  (** [UsersById(u).MessagesById(m).Get(ctx, nil)] *)
  MessageGet : W -> string -> string -> response Message * W;
  (** [UsersById(from).MicrosoftGraphSendMail().Post(ctx, body, nil)] *)
  SendMailPost : W -> string -> Message -> option error * W
}.

Arguments ToGetRequestInformation {W}.
Arguments Send {W}.
Arguments DeltaGet {W}.
Arguments AttachmentsGet {W}.
Arguments MessageGet {W}.
Arguments SendMailPost {W}.

(** [Service], service.go lines 28-31. *)
Record Service (W : Type) : Type := mkService {
  auth : Credentials;
  graph : GraphServiceClient W
}.

Arguments mkService {W}.
Arguments auth {W}.
Arguments graph {W}.

(** ** Outcomes of a call *)

(** A call returns its Go result tuple and the new world, panics (a nil
    pointer is dereferenced), or is still looping when the fuel is spent. *)
Inductive outcome (A W : Type) : Type :=
| Return (a : A) (w : W)
| Panic
| OutOfFuel.

Arguments Return {A W}.
Arguments Panic {A W}.
Arguments OutOfFuel {A W}.

(** ** The operations of the package *)

Section Operations.

Context {W : Type}.

(** The constructors of the SDK used by [NewService]. *)
Context {ClientSecretCredential AuthenticationProvider RequestAdapter : Type}.
Variable NewClientSecretCredential :
  string -> string -> string -> response ClientSecretCredential.
Variable NewAzureIdentityAuthenticationProviderWithScopes :
  ClientSecretCredential -> list string -> response AuthenticationProvider.
Variable NewNetHttpRequestAdapter :
  AuthenticationProvider -> nat -> response RequestAdapter.
Variable NewGraphServiceClient : RequestAdapter -> GraphServiceClient W.

(** [NewService], service.go lines 38-66.  The HTTP client's timeout of one
    minute is given in seconds. *)
Definition NewService (c : Credentials) : option (Service W) * option error :=
  match NewClientSecretCredential (TenantID c) (ClientID c) (ClientSecret c) with
  | inl err => (None, parseError (Some err))
  | inr credentials =>
      match NewAzureIdentityAuthenticationProviderWithScopes credentials
              ["https://graph.microsoft.com/.default"] with
      | inl err => (None, parseError (Some err))
      | inr auth =>
          match NewNetHttpRequestAdapter auth 60 with
          | inl err => (None, parseError (Some err))
          | inr ra => (Some (mkService c (NewGraphServiceClient ra)), None)
          end
      end
  end.

(** The template written into the request at service.go line 80. *)
Definition deltaCreatedUrlTemplate : string :=
  "{+baseurl}/users/{user%2Did}/mailFolders/{mailFolder%2Did}/messages/microsoft.graph.delta()?changeType=created{?%24top,%24skip,%24search,%24filter,%24count,%24select,%24orderby}".

(** The loop of service.go lines 93-98 and the return of line 100:
    [for result.GetOdataNextLink() != nil]. *)
Fixpoint skipExistingMessages (fuel : nat) (g : GraphServiceClient W) (w : W)
    (result : DeltaResponse) : outcome (option string * option error) W :=
  match GetOdataNextLink result with
  | None => Return (GetOdataDeltaLink result, None) w
  | Some nextLink =>
      match fuel with
      | O => OutOfFuel
      | S fuel' =>
          match DeltaGet g w nextLink with
          | (inl err, w') => Return (None, parseError (Some err)) w'
          | (inr result', w') => skipExistingMessages fuel' g w' result'
          end
      end
  end.

(** [GetMailFolderMessagesDeltaLink], service.go lines 73-101. *)
Definition GetMailFolderMessagesDeltaLink (fuel : nat) (c : Service W) (w : W)
    (userId mailFolderId : string) : outcome (option string * option error) W :=
  match ToGetRequestInformation (graph c) userId mailFolderId with
  | inl err => Return (None, parseError (Some err)) w
  | inr ri =>
      let ri := mkRequestInformation deltaCreatedUrlTemplate (PathParameters ri) in
      match Send (graph c) w ri with
      | (inl err, w') => Return (None, parseError (Some err)) w'
      | (inr result, w') => skipExistingMessages fuel (graph c) w' result
      end
  end.

(** The loop of service.go lines 116-122 and lines 124-126:
    [for response.GetOdataDeltaLink() == nil], whose body dereferences the
    next link without a test. *)
Fixpoint collectPages (fuel : nat) (g : GraphServiceClient W) (w : W)
    (response : DeltaResponse) (result : list Message)
    : outcome (list Message * string * option error) W :=
  match GetOdataDeltaLink response with
  | Some dl => Return (result, dl, None) w
  | None =>
      match GetOdataNextLink response with
      | None => Panic
      | Some nextLink =>
          match fuel with
          | O => OutOfFuel
          | S fuel' =>
              match DeltaGet g w nextLink with
              | (inl err, w') => Return ([], "", parseError (Some err)) w'
              | (inr response', w') =>
                  collectPages fuel' g w' response' (result ++ GetValue response')
              end
          end
      end
  end.

(** [GetMessagesDelta], service.go lines 108-127. *)
Definition GetMessagesDelta (fuel : nat) (c : Service W) (w : W)
    (deltaLink : string) : outcome (list Message * string * option error) W :=
  let result : list Message := [] in
  match DeltaGet (graph c) w deltaLink with
  | (inl err, w') => Return ([], "", parseError (Some err)) w'
  | (inr response, w') =>
      collectPages fuel (graph c) w' response (result ++ GetValue response)
  end.

(** The [range] loop of service.go lines 141-153; [None] is the panic of
    [*fileAtt.GetName()] or [*fileAtt.GetContentType()] on a nil pointer. *)
Fixpoint rangeAttachments (withContent : bool) (value : list Attachment)
    (attachments : list FileAttachment) : option (list FileAttachment) :=
  match value with
  | [] => Some attachments
  | fileAttachment (Some name) (Some contentType) contentBytes :: value' =>
      let attachment := mkFileAttachment name contentType None in
      let attachment :=
        if withContent
        then mkFileAttachment (Name attachment) (ContentType attachment) contentBytes
        else attachment in
      rangeAttachments withContent value' (attachments ++ [attachment])
  | fileAttachment _ _ _ :: _ => None
  | _ :: value' => rangeAttachments withContent value' attachments
  end.

(** [GetAttachments], service.go lines 134-156. *)
Definition GetAttachments (c : Service W) (w : W) (userId messageId : string)
    (withContent : bool) : outcome (list FileAttachment * option error) W :=
  match AttachmentsGet (graph c) w userId messageId with
  | (inl err, w') => Return ([], parseError (Some err)) w'
  | (inr result, w') =>
      match rangeAttachments withContent result [] with
      | Some attachments => Return (attachments, None) w'
      | None => Panic
      end
  end.

(** [GetMessage], service.go lines 163-170. *)
Definition GetMessage (c : Service W) (w : W) (userId messageId : string)
    : option Message * option error * W :=
  match MessageGet (graph c) w userId messageId with
  | (inl err, w') => (None, parseError (Some err), w')
  | (inr result, w') => (Some result, None, w')
  end.

(** [SendMessage], service.go lines 177-201. *)
Definition SendMessage (c : Service W) (w : W) (to from subject content : string)
    : option error * W :=
  let message := mkMessage None (Some subject) (Some "html") (Some content) [to] in
  let (err, w') := SendMailPost (graph c) w from message in
  (parseError err, w').

(** ** Page traversals

    [follows g w p rest w'] : starting in world [w] with page [p] in hand,
    following the next link of each page in turn fetches the pages [rest] and
    leaves the world [w']. *)
Fixpoint follows (g : GraphServiceClient W) (w : W) (p : DeltaResponse)
    (rest : list DeltaResponse) (w' : W) : Prop :=
  match rest with
  | [] => w' = w
  | q :: rest' =>
      exists nextLink w1,
        GetOdataNextLink p = Some nextLink /\
        DeltaGet g w nextLink = (inr q, w1) /\
        follows g w1 q rest' w'
  end.

(** The request that opens a baseline traversal, service.go lines 74-90. *)
Definition firstBaselinePage (g : GraphServiceClient W) (w : W)
    (userId mailFolderId : string) : response DeltaResponse * W :=
  match ToGetRequestInformation g userId mailFolderId with
  | inl err => (inl err, w)
  | inr ri =>
      Send g w (mkRequestInformation deltaCreatedUrlTemplate (PathParameters ri))
  end.

(** [baselineTraversal g w u f pages w'] : the baseline requests for folder
    [f] of user [u] are answered by the pages [pages], in this order. *)
Definition baselineTraversal (g : GraphServiceClient W) (w : W)
    (userId mailFolderId : string) (pages : list DeltaResponse) (w' : W) : Prop :=
  match pages with
  | [] => False
  | p :: rest =>
      exists w1, firstBaselinePage g w userId mailFolderId = (inr p, w1) /\
                 follows g w1 p rest w'
  end.

(** [deltaTraversal g w link pages w'] : replaying the cursor [link] is
    answered by the pages [pages], in this order. *)
Definition deltaTraversal (g : GraphServiceClient W) (w : W)
    (deltaLink : string) (pages : list DeltaResponse) (w' : W) : Prop :=
  match pages with
  | [] => False
  | p :: rest =>
      exists w1, DeltaGet g w deltaLink = (inr p, w1) /\ follows g w1 p rest w'
  end.

End Operations.

(** ** A stub remote API keyed by cursor value

    The world of the stub is the log of the requests it has served.  Delta
    pages are looked up by link, the first baseline page by folder and
    attachment lists by message; an unknown key is a transport error. *)

Module Stub.

Fixpoint lookup {A : Type} (key : string) (table : list (string * A)) : option A :=
  match table with
  | [] => None
  | (k, v) :: table' => if String.eqb key k then Some v else lookup key table'
  end.

Definition answer {A : Type} (key : string) (table : list (string * response A))
    : response A :=
  match lookup key table with
  | Some r => r
  | None => inl (errorString ("no route to " ++ key))
  end.

Definition client (folders links : list (string * response DeltaResponse))
    (attachments : list (string * response (list Attachment)))
    : GraphServiceClient (list string) :=
  {| ToGetRequestInformation := fun userId mailFolderId =>
       if String.eqb userId ""
       then inl (errorString "user id is empty")
       else inr (mkRequestInformation ""
                   [("user%2Did", userId); ("mailFolder%2Did", mailFolderId)]);
     Send := fun w ri =>
       match lookup "mailFolder%2Did" (PathParameters ri) with
       | Some folder => (answer folder folders, w ++ [UrlTemplate ri])
       | None => (inl (errorString "no folder"), w)
       end;
     DeltaGet := fun w url => (answer url links, w ++ [url]);
     AttachmentsGet := fun w userId messageId =>
       (answer messageId attachments, w ++ [messageId]);
     MessageGet := fun w userId messageId =>
       (inl (errorString "not served"), w);
     SendMailPost := fun w from message => (None, w ++ [from]) |}.

Definition service (folders links : list (string * response DeltaResponse))
    (attachments : list (string * response (list Attachment)))
    : Service (list string) :=
  mkService (mkCredentials "client" "secret" "tenant")
            (client folders links attachments).

Definition msg (id : string) : Message :=
  mkMessage (Some id) None None None [].

Definition page (items : list Message) (next delta : option string)
    : response DeltaResponse :=
  inr (mkDeltaResponse items next delta).

(** The scenario of the specification: folder F1 is drained over two empty
    pages up to cursor d1; replaying d1 gives two messages and cursor d2. *)
Definition scenario : Service (list string) :=
  service [("F1", page [] (Some "p2") None)]
          [("p2", page [] None (Some "d1"));
           ("d1", page [msg "msg-1"; msg "msg-2"] None (Some "d2"))]
          [].

(** A round of three pages, with items on each. *)
Definition threePages : Service (list string) :=
  service [("F1", page [msg "a"] (Some "p2") None)]
          [("c0", page [msg "a"; msg "b"] (Some "p2") None);
           ("p2", page [msg "c"] (Some "p3") None);
           ("p3", page [msg "d"; msg "e"] None (Some "c1"))]
          [].

(** A second page that carries neither a next link nor a delta link. *)
Definition neitherToken : Service (list string) :=
  service [("F1", page [msg "a"] (Some "p2") None)]
          [("c0", page [msg "a"] (Some "p2") None);
           ("p2", page [msg "b"] None None)]
          [].

(** A second page whose request is refused with an OData error payload. *)
Definition refused : error :=
  wrapError "request failed"
    (ODataError (Some (mkMainError (Some "The sync state is invalid"))) "error status code received from the API").

Definition failingSecondPage : Service (list string) :=
  service [("F1", page [msg "a"] (Some "p2") None)]
          [("c0", page [msg "a"] (Some "p2") None);
           ("p2", inl refused)]
          [].

(** A page whose next link leads back to itself. *)
Definition endless : Service (list string) :=
  service [("F1", page [msg "a"] (Some "p1") None)]
          [("p1", page [msg "a"] (Some "p1") None)]
          [].

(** Attachment lists: a mixed one, and one whose file attachment has no name. *)
Definition mixedAttachments : list Attachment :=
  [ fileAttachment (Some "a.txt") (Some "text/plain") (Some [Byte.x68; Byte.x69]);
    itemAttachment (Some "forwarded mail");
    fileAttachment (Some "b.bin") (Some "application/octet-stream") None;
    referenceAttachment (Some "shared link") ].

Definition namelessAttachments : list Attachment :=
  [ fileAttachment None (Some "text/plain") (Some [Byte.x68]) ].

Definition mailbox : Service (list string) :=
  service [] []
          [("m1", inr mixedAttachments); ("m2", inr namelessAttachments)].

End Stub.

(** ** Vocabulary of the properties *)

(** A page carries exactly one of the next link and the delta link. *)
Definition exactlyOneToken (p : DeltaResponse) : bool :=
  match GetOdataNextLink p, GetOdataDeltaLink p with
  | Some _, None | None, Some _ => true
  | _, _ => false
  end.

(** The last page of the traversal [p :: rest]. *)
Fixpoint finalPage (p : DeltaResponse) (rest : list DeltaResponse) : DeltaResponse :=
  match rest with
  | [] => p
  | q :: rest' => finalPage q rest'
  end.

(** The pages of [p :: rest] before the last one. *)
Fixpoint pagesBefore (p : DeltaResponse) (rest : list DeltaResponse)
    : list DeltaResponse :=
  match rest with
  | [] => []
  | q :: rest' => p :: pagesBefore q rest'
  end.

Definition lastPage (pages : list DeltaResponse) : option DeltaResponse :=
  match pages with
  | [] => None
  | p :: rest => Some (finalPage p rest)
  end.

Definition earlierPages (pages : list DeltaResponse) : list DeltaResponse :=
  match pages with
  | [] => []
  | p :: rest => pagesBefore p rest
  end.

(** The items of all pages, in the order served. *)
Definition allItems (pages : list DeltaResponse) : list Message :=
  concat (map GetValue pages).

(** A page request of a baseline traversal fails with [err] after [n]
    follow-up requests have been made, leaving the world [w']: either the
    opening request fails, or the pages [pages] arrive and the request for the
    next link of the last of them fails. *)
Inductive baselineRequestFails {W : Type} (g : GraphServiceClient W) (w : W)
    (userId mailFolderId : string) : nat -> error -> W -> Prop :=
| openingRequestFails (err : error) (w' : W) :
    firstBaselinePage g w userId mailFolderId = (inl err, w') ->
    baselineRequestFails g w userId mailFolderId 0 err w'
| followUpRequestFails (pages : list DeltaResponse) (w1 : W) (q : DeltaResponse)
    (nextLink : string) (err : error) (w' : W) :
    baselineTraversal g w userId mailFolderId pages w1 ->
    lastPage pages = Some q ->
    GetOdataNextLink q = Some nextLink ->
    DeltaGet g w1 nextLink = (inl err, w') ->
    baselineRequestFails g w userId mailFolderId (length pages) err w'.

(** The error component of an outcome; a call that does not return has none. *)
Definition returnedError {A W : Type} (proj : A -> option error)
    (o : outcome A W) : option error :=
  match o with
  | Return a _ => proj a
  | _ => None
  end.

(** The call came back with a non-nil error. *)
Definition failsWithError {A W : Type} (proj : A -> option error)
    (o : outcome A W) : bool :=
  match returnedError proj o with
  | Some _ => true
  | None => false
  end.

(** An error value is nil or a bare text, as [errors.New] builds it. *)
Definition isFlat (err : option error) : bool :=
  match err with
  | None | Some (errorString _) => true
  | Some _ => false
  end.

(** The dynamic type test [att.(models.FileAttachmentable)]. *)
Definition isFileAttachment (att : Attachment) : bool :=
  match att with
  | fileAttachment _ _ _ => true
  | _ => false
  end.

(** A file attachment whose name and content type are both present. *)
Definition hasNameAndContentType (att : Attachment) : bool :=
  match att with
  | fileAttachment (Some _) (Some _) _ => true
  | fileAttachment _ _ _ => false
  | _ => true
  end.

(** [fa] carries the name and the content type of the file attachment [att]. *)
Definition sameFile (att : Attachment) (fa : FileAttachment) : Prop :=
  match att with
  | fileAttachment name contentType _ =>
      name = Some (Name fa) /\ contentType = Some (ContentType fa)
  | _ => False
  end.

(** The content of [fa] against the bytes of [att], by [withContent]. *)
Definition contentAsAsked (withContent : bool) (att : Attachment)
    (fa : FileAttachment) : Prop :=
  match att with
  | fileAttachment _ _ contentBytes =>
      Content fa = if withContent then contentBytes else None
  | _ => False
  end.

(** A page request of a change round fails with [err] after [n] follow-up
    requests have been made, leaving the world [w']: either the request that
    replays the cursor fails, or the pages [pages] arrive, none of them with a
    delta link, and the request for the next link of the last of them fails. *)
Inductive deltaRequestFails {W : Type} (g : GraphServiceClient W) (w : W)
    (deltaLink : string) : nat -> error -> W -> Prop :=
| replayRequestFails (err : error) (w' : W) :
    DeltaGet g w deltaLink = (inl err, w') ->
    deltaRequestFails g w deltaLink 0 err w'
| nextPageRequestFails (pages : list DeltaResponse) (w1 : W) (q : DeltaResponse)
    (nextLink : string) (err : error) (w' : W) :
    deltaTraversal g w deltaLink pages w1 ->
    Forall (fun p => GetOdataDeltaLink p = None) pages ->
    lastPage pages = Some q ->
    GetOdataNextLink q = Some nextLink ->
    DeltaGet g w1 nextLink = (inl err, w') ->
    deltaRequestFails g w deltaLink (length pages) err w'.

(** An entry of the result of [GetAttachments] without its content. *)
Definition withoutContent (fa : FileAttachment) : FileAttachment :=
  mkFileAttachment (Name fa) (ContentType fa) None.

(** ** The command of the repository

    [main] of the command that uses the package (the source file of package
    [main]).  What it writes with [fmt.Printf] is the list of the strings
    written, in order; a run ends normally or in a panic, after which nothing
    more is written.  The package [msgraph] never reads the received time of a
    message: the getter is taken beside the record [Message], with the type of
    times and [Format] left to the library. *)

Section Command.

Context {W : Type}.
Context {ClientSecretCredential AuthenticationProvider RequestAdapter Time : Type}.
Variable Getenv : string -> string.
Variable NewClientSecretCredential :
  string -> string -> string -> response ClientSecretCredential.
Variable NewAzureIdentityAuthenticationProviderWithScopes :
  ClientSecretCredential -> list string -> response AuthenticationProvider.
Variable NewNetHttpRequestAdapter :
  AuthenticationProvider -> nat -> response RequestAdapter.
Variable NewGraphServiceClient : RequestAdapter -> GraphServiceClient W.
Variable GetReceivedDateTime : Message -> option Time.
Variable Format : Time -> string -> string.

(** The line feed that ends every format string of [main]. *)
Definition lineFeed : string := String (Ascii.ascii_of_nat 10) EmptyString.

(** How a run of [main] ends. *)
Inductive ending : Type :=
| returned
| panicked.

(** [main], lines 11-41 of the command.  [service.GetMessage] on a nil
    service, a method call on a nil message or body, and [*p] or [p.Format]
    on a nil [p] are panics; the arguments of a [Printf] are evaluated before
    anything is written. *)
Definition main (w : W) : list string * ending * W :=
  let clientID := Getenv "CLIENT_ID" in
  let clientSecret := Getenv "CLIENT_SECRET" in
  let tenantID := Getenv "TENANT_ID" in
  let userId := Getenv "USER_ID" in
  let messageId := Getenv "MESSAGE_ID" in
  match NewService NewClientSecretCredential
          NewAzureIdentityAuthenticationProviderWithScopes
          NewNetHttpRequestAdapter NewGraphServiceClient
          (mkCredentials clientID clientSecret tenantID) with
  | (_, Some err) =>
      ([("Error creating service: " ++ Error err ++ lineFeed)%string], returned, w)
  | (None, None) => ([], panicked, w)
  | (Some service, None) =>
      match GetMessage service w userId messageId with
      | (_, Some err, w') =>
          ([("Error getting message: " ++ Error err ++ lineFeed)%string], returned, w')
      | (None, None, w') => ([], panicked, w')
      | (Some message, None, w') =>
          match GetSubject message with
          | None => ([], panicked, w')
          | Some subject =>
              let out := [("Subject: " ++ subject ++ lineFeed)%string] in
              match GetBodyContent message with
              | None => (out, panicked, w')
              | Some content =>
                  let out := out ++ [("Body: " ++ content ++ lineFeed)%string] in
                  match GetReceivedDateTime message with
                  | None => (out, panicked, w')
                  | Some received =>
                      (out ++ [("Received: "
                                ++ Format received "2006-01-02 15:04:05"
                                ++ lineFeed)%string],
                       returned, w')
                  end
              end
          end
      end
  end.

End Command.

(** A stub for the command: the environment, constructors that accept any
    credentials with a tenant, and a mailbox that serves three messages. *)
Module StubCommand.

Definition environment (name : string) : string :=
  match Stub.lookup name
          [("CLIENT_ID", "client"); ("CLIENT_SECRET", "secret");
           ("TENANT_ID", "tenant"); ("USER_ID", "user"); ("MESSAGE_ID", "m1")] with
  | Some value => value
  | None => ""
  end.

Definition environmentFor (messageId : string) (name : string) : string :=
  if String.eqb name "MESSAGE_ID" then messageId else environment name.

Definition newCredential (tenant client secret : string) : response string :=
  if String.eqb tenant "" then inl (errorString "tenant ID is empty")
  else inr (tenant ++ "/" ++ client)%string.

Definition newProvider (credential : string) (scopes : list string)
    : response (string * list string) :=
  inr (credential, scopes).

Definition newAdapter (provider : string * list string) (timeout : nat)
    : response (string * list string * nat) :=
  inr (provider, timeout).

Definition messages : list (string * response Message) :=
  [("m1", inr (mkMessage (Some "m1") (Some "Hello") None (Some "<p>Hi</p>") []));
   ("m2", inr (mkMessage (Some "m2") None None (Some "<p>Hi</p>") []));
   ("m3", inr (mkMessage (Some "m3") (Some "Hello") None None []));
   ("m4", inl Stub.refused)].

Definition newClient (adapter : string * list string * nat)
    : GraphServiceClient (list string) :=
  {| ToGetRequestInformation := fun userId mailFolderId =>
       inl (errorString "not served");
     Send := fun w ri => (inl (errorString "not served"), w);
     DeltaGet := fun w url => (inl (errorString "not served"), w);
     AttachmentsGet := fun w userId messageId =>
       (inl (errorString "not served"), w);
     MessageGet := fun w userId messageId =>
       (Stub.answer messageId messages, w ++ [messageId]);
     SendMailPost := fun w from message =>
       if String.eqb from "" then (Some Stub.refused, w)
       else (None, w ++ [from]) |}.

Definition received (message : Message) : option nat :=
  match GetId message with
  | Some "m1" => Some 42
  | _ => None
  end.

Definition format (t : nat) (layout : string) : string := "2023-11-14 22:13:20".

Definition run (messageId : string) : list string * ending * list string :=
  main (environmentFor messageId) newCredential newProvider newAdapter newClient
       received format [].

End StubCommand.

(** ** Facts about the traversal loops *)

Section Loops.

Context {W : Type}.
Variable g : GraphServiceClient W.

Lemma exactlyOneToken_next (p : DeltaResponse) (nextLink : string) :
  exactlyOneToken p = true -> GetOdataNextLink p = Some nextLink ->
  GetOdataDeltaLink p = None.
Proof.
  unfold exactlyOneToken. intros H Hn. rewrite Hn in H.
  destruct (GetOdataDeltaLink p); [discriminate | reflexivity].
Qed.

Lemma exactlyOneToken_delta (p : DeltaResponse) (dl : string) :
  exactlyOneToken p = true -> GetOdataDeltaLink p = Some dl ->
  GetOdataNextLink p = None.
Proof.
  unfold exactlyOneToken. intros H Hd. rewrite Hd in H.
  destruct (GetOdataNextLink p); [discriminate | reflexivity].
Qed.

Lemma finalPage_Forall (P : DeltaResponse -> Prop) (p : DeltaResponse)
    (rest : list DeltaResponse) :
  Forall P (p :: rest) -> P (finalPage p rest).
Proof.
  revert p. induction rest as [|q rest IH]; intros p H; inversion H; subst.
  - assumption.
  - cbn [finalPage]. apply IH. assumption.
Qed.

Lemma finalPage_last (p d : DeltaResponse) (rest : list DeltaResponse) :
  finalPage p rest = last (p :: rest) d.
Proof.
  revert p. induction rest as [|q rest IH]; intros p; [reflexivity|].
  cbn [finalPage]. rewrite IH. reflexivity.
Qed.

(** Stepping the loops once along a served page. *)
Ltac step_follows H :=
  cbn [follows] in H;
  destruct H as (nextLink & w1 & Hnext & Hget & H).

(** With fuel for every follow-up request, [collectPages] appends the items of
    the pages that follow and ends on the delta link of the last one. *)
Lemma collectPages_returns (rest : list DeltaResponse) :
  forall (fuel : nat) (w : W) (p : DeltaResponse) (acc : list Message)
         (w' : W) (dl : string),
    follows g w p rest w' ->
    Forall (fun q => exactlyOneToken q = true) (p :: rest) ->
    GetOdataDeltaLink (finalPage p rest) = Some dl ->
    length rest <= fuel ->
    collectPages fuel g w p acc = Return (acc ++ allItems rest, dl, None) w'.
Proof.
  induction rest as [|q rest IH]; intros fuel w p acc w' dl Hf Hone Hdl Hfuel.
  - cbn in Hf, Hdl. subst w'. unfold allItems. cbn. rewrite app_nil_r.
    destruct fuel; cbn; rewrite Hdl; reflexivity.
  - step_follows Hf. inversion Hone as [|? ? Hp Hrest]; subst.
    pose proof (exactlyOneToken_next _ _ Hp Hnext) as Hnone.
    destruct fuel as [|fuel]; [cbn in Hfuel; lia|].
    cbn [collectPages]. rewrite Hnone, Hnext, Hget.
    rewrite (IH fuel w1 q (acc ++ GetValue q) w' dl Hf Hrest Hdl).
    + unfold allItems. cbn. rewrite app_assoc. reflexivity.
    + cbn in Hfuel. lia.
Qed.

(** With less fuel than follow-up requests, [collectPages] is still looping. *)
Lemma collectPages_needs_fuel (rest : list DeltaResponse) :
  forall (fuel : nat) (w : W) (p : DeltaResponse) (acc : list Message) (w' : W),
    follows g w p rest w' ->
    Forall (fun q => exactlyOneToken q = true) (p :: rest) ->
    fuel < length rest ->
    collectPages fuel g w p acc = OutOfFuel.
Proof.
  induction rest as [|q rest IH]; intros fuel w p acc w' Hf Hone Hfuel.
  - cbn in Hfuel. lia.
  - step_follows Hf. inversion Hone as [|? ? Hp Hrest]; subst.
    pose proof (exactlyOneToken_next _ _ Hp Hnext) as Hnone.
    destruct fuel as [|fuel]; cbn [collectPages]; rewrite Hnone, Hnext.
    + reflexivity.
    + rewrite Hget. apply (IH fuel w1 q _ w' Hf Hrest). cbn in Hfuel. lia.
Qed.

(** [skipExistingMessages] follows the next links and returns the delta link
    of the last page. *)
Lemma skipExistingMessages_returns (rest : list DeltaResponse) :
  forall (fuel : nat) (w : W) (p : DeltaResponse) (w' : W),
    follows g w p rest w' ->
    GetOdataNextLink (finalPage p rest) = None ->
    length rest <= fuel ->
    skipExistingMessages fuel g w p
    = Return (GetOdataDeltaLink (finalPage p rest), None) w'.
Proof.
  induction rest as [|q rest IH]; intros fuel w p w' Hf Hlast Hfuel.
  - cbn in Hf, Hlast |- *. subst w'.
    destruct fuel; cbn; rewrite Hlast; reflexivity.
  - step_follows Hf.
    destruct fuel as [|fuel]; [cbn in Hfuel; lia|].
    cbn [skipExistingMessages finalPage]. rewrite Hnext, Hget.
    apply IH; [assumption | assumption | cbn in Hfuel; lia].
Qed.

Lemma skipExistingMessages_needs_fuel (rest : list DeltaResponse) :
  forall (fuel : nat) (w : W) (p : DeltaResponse) (w' : W),
    follows g w p rest w' ->
    fuel < length rest ->
    skipExistingMessages fuel g w p = OutOfFuel.
Proof.
  induction rest as [|q rest IH]; intros fuel w p w' Hf Hfuel.
  - cbn in Hfuel. lia.
  - step_follows Hf.
    destruct fuel as [|fuel]; cbn [skipExistingMessages]; rewrite Hnext.
    + reflexivity.
    + rewrite Hget. apply (IH fuel w1 q w' Hf). cbn in Hfuel. lia.
Qed.

(** A failing follow-up request ends [collectPages] with no item, the empty
    cursor and the flattened error. *)
Lemma collectPages_fails (rest : list DeltaResponse) :
  forall (fuel : nat) (w : W) (p : DeltaResponse) (acc : list Message)
         (wf w' : W) (nextLink : string) (err : error),
    follows g w p rest wf ->
    Forall (fun q => GetOdataDeltaLink q = None) (p :: rest) ->
    GetOdataNextLink (finalPage p rest) = Some nextLink ->
    DeltaGet g wf nextLink = (inl err, w') ->
    length rest < fuel ->
    collectPages fuel g w p acc = Return ([], "", parseError (Some err)) w'.
Proof.
  induction rest as [|q rest IH];
    intros fuel w p acc wf w' link err Hf Hnone Hlast Hfail Hfuel;
    inversion Hnone as [|? ? Hp Hrest]; subst;
    (destruct fuel as [|fuel]; [cbn in Hfuel; lia|]).
  - cbn in Hf, Hlast. subst wf.
    cbn [collectPages]. rewrite Hp, Hlast, Hfail. reflexivity.
  - step_follows Hf. cbn [collectPages]. rewrite Hp, Hnext, Hget.
    apply (IH fuel w1 q _ wf w' link err); try assumption.
    cbn in Hfuel. lia.
Qed.

Lemma skipExistingMessages_fails (rest : list DeltaResponse) :
  forall (fuel : nat) (w : W) (p : DeltaResponse)
         (wf w' : W) (nextLink : string) (err : error),
    follows g w p rest wf ->
    GetOdataNextLink (finalPage p rest) = Some nextLink ->
    DeltaGet g wf nextLink = (inl err, w') ->
    length rest < fuel ->
    skipExistingMessages fuel g w p = Return (None, parseError (Some err)) w'.
Proof.
  induction rest as [|q rest IH];
    intros fuel w p wf w' link err Hf Hlast Hfail Hfuel;
    (destruct fuel as [|fuel]; [cbn in Hfuel; lia|]).
  - cbn in Hf, Hlast. subst wf.
    cbn [skipExistingMessages]. rewrite Hlast, Hfail. reflexivity.
  - step_follows Hf. cbn [skipExistingMessages]. rewrite Hnext, Hget.
    apply (IH fuel w1 q wf w' link err); try assumption.
    cbn in Hfuel. lia.
Qed.

(** A last page without any token: [collectPages] dereferences the nil next
    link. *)
Lemma collectPages_panics (rest : list DeltaResponse) :
  forall (fuel : nat) (w : W) (p : DeltaResponse) (acc : list Message) (w' : W),
    follows g w p rest w' ->
    Forall (fun q => exactlyOneToken q = true) (pagesBefore p rest) ->
    GetOdataNextLink (finalPage p rest) = None ->
    GetOdataDeltaLink (finalPage p rest) = None ->
    length rest <= fuel ->
    collectPages fuel g w p acc = Panic.
Proof.
  induction rest as [|q rest IH]; intros fuel w p acc w' Hf Hone Hn Hd Hfuel.
  - cbn in Hn, Hd. destruct fuel; cbn; rewrite Hd, Hn; reflexivity.
  - step_follows Hf. cbn [pagesBefore] in Hone.
    inversion Hone as [|? ? Hp Hrest]; subst.
    pose proof (exactlyOneToken_next _ _ Hp Hnext) as Hnone.
    destruct fuel as [|fuel]; [cbn in Hfuel; lia|].
    cbn [collectPages]. rewrite Hnone, Hnext, Hget.
    apply (IH fuel w1 q _ w'); try assumption. cbn in Hfuel. lia.
Qed.

End Loops.

(** ** Facts about [parseError] and the attachment loop *)

Lemma parseError_flat (err : option error) : isFlat (parseError err) = true.
Proof.
  destruct err as [e|]; [|reflexivity]. unfold parseError.
  destruct (As e) as [[me|]|]; [destruct (errors.GetMessage me)| |]; reflexivity.
Qed.

Lemma parseError_of_error (e : error) : parseError (Some e) <> None.
Proof.
  unfold parseError.
  destruct (As e) as [[me|]|]; [destruct (errors.GetMessage me)| |]; discriminate.
Qed.

(** What [rangeAttachments] has appended when it comes to its end. *)
Lemma rangeAttachments_appends (withContent : bool) (value : list Attachment) :
  forall attachments result : list FileAttachment,
    rangeAttachments withContent value attachments = Some result ->
    exists added,
      result = attachments ++ added /\
      Forall2 (fun att fa => sameFile att fa /\ contentAsAsked withContent att fa)
              (filter isFileAttachment value) added.
Proof.
  induction value as [|att value IH]; intros attachments result H.
  - cbn in H. injection H as <-. exists []. rewrite app_nil_r. split; constructor.
  - destruct att as [[name|] [contentType|] contentBytes | name | name];
      cbn [rangeAttachments] in H; try discriminate;
      try (cbn [filter isFileAttachment]; apply IH; exact H).
    apply IH in H. destruct H as (added & -> & Hall).
    eexists (_ :: added). rewrite <- app_assoc. split; [reflexivity|].
    cbn [filter isFileAttachment]. constructor; [|exact Hall].
    destruct withContent; cbn; auto.
Qed.

(** The loop panics on no list whose file attachments are all named and
    typed. *)
Lemma rangeAttachments_total (withContent : bool) (value : list Attachment) :
  forall attachments : list FileAttachment,
    forallb hasNameAndContentType value = true ->
    exists result, rangeAttachments withContent value attachments = Some result.
Proof.
  induction value as [|att value IH]; intros attachments H.
  - eexists. reflexivity.
  - cbn [forallb] in H. apply andb_true_iff in H. destruct H as [Hatt H].
    destruct att as [[name|] [contentType|] contentBytes | name | name];
      cbn in Hatt; try discriminate; cbn [rangeAttachments]; apply IH; exact H.
Qed.

(** ** The two operations along a traversal *)

Section Along.

Context {W : Type}.
Variable c : Service W.

Lemma firstBaselinePage_served (w w1 : W) (userId mailFolderId : string)
    (p : DeltaResponse) (fuel : nat) :
  firstBaselinePage (graph c) w userId mailFolderId = (inr p, w1) ->
  GetMailFolderMessagesDeltaLink fuel c w userId mailFolderId
  = skipExistingMessages fuel (graph c) w1 p.
Proof.
  unfold firstBaselinePage, GetMailFolderMessagesDeltaLink. intros H.
  destruct (ToGetRequestInformation (graph c) userId mailFolderId) as [err|ri];
    [discriminate|].
  cbv zeta. rewrite H. reflexivity.
Qed.

Lemma firstBaselinePage_refused (w w1 : W) (userId mailFolderId : string)
    (err : error) (fuel : nat) :
  firstBaselinePage (graph c) w userId mailFolderId = (inl err, w1) ->
  GetMailFolderMessagesDeltaLink fuel c w userId mailFolderId
  = Return (None, parseError (Some err)) w1.
Proof.
  unfold firstBaselinePage, GetMailFolderMessagesDeltaLink. intros H.
  destruct (ToGetRequestInformation (graph c) userId mailFolderId) as [err'|ri].
  - injection H as <- <-. reflexivity.
  - cbv zeta. rewrite H. reflexivity.
Qed.

Lemma baseline_along (w w' : W) (userId mailFolderId : string)
    (pages : list DeltaResponse) (pk : DeltaResponse) (dl : string) (fuel : nat) :
  baselineTraversal (graph c) w userId mailFolderId pages w' ->
  Forall (fun p => exactlyOneToken p = true) pages ->
  lastPage pages = Some pk ->
  GetOdataDeltaLink pk = Some dl ->
  (length pages <= S fuel ->
     GetMailFolderMessagesDeltaLink fuel c w userId mailFolderId
     = Return (Some dl, None) w') /\
  (S fuel < length pages ->
     GetMailFolderMessagesDeltaLink fuel c w userId mailFolderId = OutOfFuel).
Proof.
  intros Ht Hone Hlast Hdl.
  destruct pages as [|p rest]; [contradiction|].
  destruct Ht as (w1 & Hfirst & Hf). injection Hlast as <-.
  rewrite (firstBaselinePage_served w w1 _ _ p fuel Hfirst).
  split; intros Hfuel; cbn in Hfuel.
  - rewrite (skipExistingMessages_returns (graph c) rest fuel w1 p w' Hf).
    + rewrite Hdl. reflexivity.
    + apply (exactlyOneToken_delta _ dl); [|exact Hdl].
      apply (finalPage_Forall (fun q => exactlyOneToken q = true)). exact Hone.
    + lia.
  - apply (skipExistingMessages_needs_fuel (graph c) rest fuel w1 p w' Hf). lia.
Qed.

Lemma delta_along (w w' : W) (deltaLink : string)
    (pages : list DeltaResponse) (pk : DeltaResponse) (dl : string) (fuel : nat) :
  deltaTraversal (graph c) w deltaLink pages w' ->
  Forall (fun p => exactlyOneToken p = true) pages ->
  lastPage pages = Some pk ->
  GetOdataDeltaLink pk = Some dl ->
  (length pages <= S fuel ->
     GetMessagesDelta fuel c w deltaLink = Return (allItems pages, dl, None) w') /\
  (S fuel < length pages ->
     GetMessagesDelta fuel c w deltaLink = OutOfFuel).
Proof.
  intros Ht Hone Hlast Hdl.
  destruct pages as [|p rest]; [contradiction|].
  destruct Ht as (w1 & Hget & Hf). injection Hlast as <-.
  unfold GetMessagesDelta. rewrite Hget.
  split; intros Hfuel; cbn in Hfuel.
  - rewrite (collectPages_returns (graph c) rest fuel w1 p _ w' dl Hf Hone Hdl).
    + reflexivity.
    + lia.
  - apply (collectPages_needs_fuel (graph c) rest fuel w1 p _ w' Hf Hone). lia.
Qed.


Lemma baseline_request_fails (w w' : W) (userId mailFolderId : string)
    (n : nat) (err : error) (fuel : nat) :
  baselineRequestFails (graph c) w userId mailFolderId n err w' ->
  n <= fuel ->
  GetMailFolderMessagesDeltaLink fuel c w userId mailFolderId
  = Return (None, parseError (Some err)) w'.
Proof.
  intros Hfail Hfuel.
  destruct Hfail as [err w' Hfirst | pages w1 q nextLink err w' Ht Hlast Hnext Hget].
  - apply firstBaselinePage_refused. exact Hfirst.
  - destruct pages as [|p rest]; [contradiction|].
    destruct Ht as (w0 & Hfirst & Hf). injection Hlast as <-.
    rewrite (firstBaselinePage_served w w0 _ _ p fuel Hfirst).
    apply (skipExistingMessages_fails (graph c) rest fuel w0 p w1 w' nextLink err);
      assumption.
Qed.

Lemma delta_request_fails (w w1 w' : W) (deltaLink : string)
    (pages : list DeltaResponse) (q : DeltaResponse) (nextLink : string)
    (err : error) (fuel : nat) :
  deltaTraversal (graph c) w deltaLink pages w1 ->
  Forall (fun p => GetOdataDeltaLink p = None) pages ->
  lastPage pages = Some q ->
  GetOdataNextLink q = Some nextLink ->
  DeltaGet (graph c) w1 nextLink = (inl err, w') ->
  length pages <= fuel ->
  GetMessagesDelta fuel c w deltaLink = Return ([], "", parseError (Some err)) w'.
Proof.
  intros Ht Hnone Hlast Hnext Hfail Hfuel.
  destruct pages as [|p rest]; [contradiction|].
  destruct Ht as (w0 & Hget & Hf). injection Hlast as <-.
  unfold GetMessagesDelta. rewrite Hget.
  apply (collectPages_fails (graph c) rest fuel w0 p _ w1 w' nextLink err);
    assumption.
Qed.

Lemma no_token_on_last_page (w w' : W) (userId mailFolderId deltaLink : string)
    (pages : list DeltaResponse) (pk : DeltaResponse) (fuel : nat) :
  lastPage pages = Some pk ->
  GetOdataNextLink pk = None ->
  GetOdataDeltaLink pk = None ->
  Forall (fun p => exactlyOneToken p = true) (earlierPages pages) ->
  length pages <= S fuel ->
  (baselineTraversal (graph c) w userId mailFolderId pages w' ->
     GetMailFolderMessagesDeltaLink fuel c w userId mailFolderId
     = Return (None, None) w') /\
  (deltaTraversal (graph c) w deltaLink pages w' ->
     GetMessagesDelta fuel c w deltaLink = Panic).
Proof.
  intros Hlast Hn Hd Hone Hfuel.
  destruct pages as [|p rest]; [discriminate|].
  injection Hlast as <-. cbn in Hfuel, Hone.
  split; intros (w1 & Hfirst & Hf).
  - rewrite (firstBaselinePage_served w w1 _ _ p fuel Hfirst).
    rewrite (skipExistingMessages_returns (graph c) rest fuel w1 p w' Hf Hn);
      [rewrite Hd; reflexivity | lia].
  - unfold GetMessagesDelta. rewrite Hfirst.
    apply (collectPages_panics (graph c) rest fuel w1 p _ w'); try assumption.
    lia.
Qed.

Lemma skipExistingMessages_flat (fuel : nat) :
  forall (w : W) (p : DeltaResponse),
    isFlat (returnedError snd (skipExistingMessages fuel (graph c) w p)) = true.
Proof.
  induction fuel as [|fuel IH]; intros w p; cbn [skipExistingMessages];
    destruct (GetOdataNextLink p) as [nextLink|]; try reflexivity.
  destruct (DeltaGet (graph c) w nextLink) as [[err|q] w1]; [|apply IH].
  apply parseError_flat.
Qed.

Lemma collectPages_flat (fuel : nat) :
  forall (w : W) (p : DeltaResponse) (acc : list Message),
    isFlat (returnedError snd (collectPages fuel (graph c) w p acc)) = true.
Proof.
  induction fuel as [|fuel IH]; intros w p acc; cbn [collectPages];
    destruct (GetOdataDeltaLink p); try reflexivity;
    destruct (GetOdataNextLink p) as [nextLink|]; try reflexivity.
  destruct (DeltaGet (graph c) w nextLink) as [[err|q] w1]; [|apply IH].
  apply parseError_flat.
Qed.


(** Conversely, a loop that returns without error has walked a traversal that
    ends where it says, whatever tokens the pages carry. *)
Lemma collectPages_returned (fuel : nat) :
  forall (w : W) (p : DeltaResponse) (acc items : list Message) (dl : string)
         (w' : W),
    collectPages fuel (graph c) w p acc = Return (items, dl, None) w' ->
    exists rest,
      follows (graph c) w p rest w' /\
      GetOdataDeltaLink (finalPage p rest) = Some dl /\
      items = acc ++ allItems rest /\
      length rest <= fuel.
Proof.
  induction fuel as [|fuel IH]; intros w p acc items dl w' H;
    cbn [collectPages] in H;
    destruct (GetOdataDeltaLink p) as [d|] eqn:Hd.
  1, 3: injection H as <- <- <-; exists []; cbn;
        rewrite app_nil_r; repeat split; [assumption | lia].
  - destruct (GetOdataNextLink p); discriminate.
  - destruct (GetOdataNextLink p) as [nextLink|] eqn:Hn; [|discriminate].
    destruct (DeltaGet (graph c) w nextLink) as [[err|q] w1] eqn:Hget.
    + injection H as _ _ Herr _. destruct (parseError_of_error err Herr).
    + apply IH in H. destruct H as (rest & Hf & Hdl & -> & Hlen).
      exists (q :: rest). cbn [follows finalPage length]. repeat split.
      * exists nextLink, w1. repeat split; assumption.
      * exact Hdl.
      * unfold allItems. cbn. rewrite app_assoc. reflexivity.
      * lia.
Qed.

Lemma skipExistingMessages_returned (fuel : nat) :
  forall (w : W) (p : DeltaResponse) (cursor : option string) (w' : W),
    skipExistingMessages fuel (graph c) w p = Return (cursor, None) w' ->
    exists rest,
      follows (graph c) w p rest w' /\
      GetOdataNextLink (finalPage p rest) = None /\
      cursor = GetOdataDeltaLink (finalPage p rest) /\
      length rest <= fuel.
Proof.
  induction fuel as [|fuel IH]; intros w p cursor w' H;
    cbn [skipExistingMessages] in H;
    destruct (GetOdataNextLink p) as [nextLink|] eqn:Hn.
  2, 4: injection H as <- <-; exists []; cbn; repeat split; [assumption | lia].
  - discriminate.
  - destruct (DeltaGet (graph c) w nextLink) as [[err|q] w1] eqn:Hget.
    + injection H as _ Herr _. destruct (parseError_of_error err Herr).
    + apply IH in H. destruct H as (rest & Hf & Hnone & -> & Hlen).
      exists (q :: rest). cbn [follows finalPage length]. repeat split.
      * exists nextLink, w1. repeat split; assumption.
      * exact Hnone.
      * lia.
Qed.

End Along.

(** ** Properties of the delta synchroniser *)

(** Discharging a traversal of a stub service: every request is evaluated. *)
Ltac served :=
  cbn; repeat first [reflexivity | split | eexists].

Ltac each_page := repeat constructor.

(** C1 (accumulation order).  When replaying a cursor is answered by the pages
    P1..Pk (k >= 1), each carrying exactly one of the two tokens and Pk the
    delta token [dl], [GetMessagesDelta] returns the items of P1, then those
    of P2, ... then those of Pk, together with the cursor [dl] and no error,
    as soon as it has fuel for the k-1 follow-up requests. *)
Theorem GetMessagesDelta_accumulates_in_order {W : Type} (c : Service W) (w w' : W)
    (deltaLink : string) (pages : list DeltaResponse) (pk : DeltaResponse)
    (dl : string) (fuel : nat) :
  deltaTraversal (graph c) w deltaLink pages w' ->
  Forall (fun p => exactlyOneToken p = true) pages ->
  lastPage pages = Some pk ->
  GetOdataDeltaLink pk = Some dl ->
  length pages <= S fuel ->
  GetMessagesDelta fuel c w deltaLink = Return (allItems pages, dl, None) w'.
Proof.
  intros Ht Hone Hlast Hdl Hfuel.
  exact (proj1 (delta_along c w w' deltaLink pages pk dl fuel Ht Hone Hlast Hdl)
               Hfuel).
Qed.

Lemma GetMessagesDelta_accumulates_in_order_witness :
  GetMessagesDelta 2 Stub.threePages [] "c0"
  = Return ([Stub.msg "a"; Stub.msg "b"; Stub.msg "c"; Stub.msg "d"; Stub.msg "e"],
            "c1", None) ["c0"; "p2"; "p3"].
Proof.
  apply (GetMessagesDelta_accumulates_in_order Stub.threePages [] ["c0"; "p2"; "p3"] "c0"
           [ mkDeltaResponse [Stub.msg "a"; Stub.msg "b"] (Some "p2") None;
             mkDeltaResponse [Stub.msg "c"] (Some "p3") None;
             mkDeltaResponse [Stub.msg "d"; Stub.msg "e"] None (Some "c1") ]
           (mkDeltaResponse [Stub.msg "d"; Stub.msg "e"] None (Some "c1"))
           "c1" 2).
  - served.
  - each_page.
  - reflexivity.
  - reflexivity.
  - cbn. lia.
Defined.

(** C6 (empty round).  When the first page carries no item and a delta token,
    [GetMessagesDelta] returns without error, with no item and with that delta
    token as the new cursor. *)
Theorem GetMessagesDelta_empty_round {W : Type} (c : Service W) (w w' : W)
    (deltaLink : string) (p : DeltaResponse) (dl : string) (fuel : nat) :
  DeltaGet (graph c) w deltaLink = (inr p, w') ->
  GetValue p = [] ->
  GetOdataDeltaLink p = Some dl ->
  GetMessagesDelta fuel c w deltaLink = Return ([], dl, None) w'.
Proof.
  intros Hget Hval Hdl. unfold GetMessagesDelta. rewrite Hget, Hval.
  destruct fuel; cbn; rewrite Hdl; reflexivity.
Qed.

Lemma GetMessagesDelta_empty_round_witness :
  GetMessagesDelta 0 Stub.scenario [] "p2" = Return ([], "d1", None) ["p2"].
Proof.
  apply (GetMessagesDelta_empty_round Stub.scenario [] ["p2"] "p2"
           (mkDeltaResponse [] None (Some "d1")) "d1" 0); reflexivity.
Defined.

(** C3 (baseline discards items).  When the baseline requests are answered by
    N pages, each carrying exactly one of the two tokens and the last one the
    delta token [dl], [GetMailFolderMessagesDeltaLink] returns [dl] and a nil
    error, and nothing else: its result has no place for items, and is the
    same whatever items the pages hold. *)
Theorem GetMailFolderMessagesDeltaLink_returns_only_the_delta_link {W : Type}
    (c : Service W) (w w' : W) (userId mailFolderId : string)
    (pages : list DeltaResponse) (pk : DeltaResponse) (dl : string) (fuel : nat) :
  baselineTraversal (graph c) w userId mailFolderId pages w' ->
  Forall (fun p => exactlyOneToken p = true) pages ->
  lastPage pages = Some pk ->
  GetOdataDeltaLink pk = Some dl ->
  length pages <= S fuel ->
  GetMailFolderMessagesDeltaLink fuel c w userId mailFolderId
  = Return (Some dl, None) w'.
Proof.
  intros Ht Hone Hlast Hdl Hfuel.
  exact (proj1 (baseline_along c w w' userId mailFolderId pages pk dl fuel
                  Ht Hone Hlast Hdl) Hfuel).
Qed.

Lemma GetMailFolderMessagesDeltaLink_returns_only_the_delta_link_witness :
  GetMailFolderMessagesDeltaLink 2 Stub.threePages [] "user" "F1"
  = Return (Some "c1", None) [deltaCreatedUrlTemplate; "p2"; "p3"].
Proof.
  apply (GetMailFolderMessagesDeltaLink_returns_only_the_delta_link
           Stub.threePages [] [deltaCreatedUrlTemplate; "p2"; "p3"] "user" "F1"
           [ mkDeltaResponse [Stub.msg "a"] (Some "p2") None;
             mkDeltaResponse [Stub.msg "c"] (Some "p3") None;
             mkDeltaResponse [Stub.msg "d"; Stub.msg "e"] None (Some "c1") ]
           (mkDeltaResponse [Stub.msg "d"; Stub.msg "e"] None (Some "c1")) "c1" 2).
  - served.
  - each_page.
  - reflexivity.
  - reflexivity.
  - cbn. lia.
Defined.

(** C5 (termination).  When the pages served are finitely many, P1..Pk, each
    carrying exactly one of the two tokens and Pk a delta token, both loops
    come to an end, and they do so on Pk and not before: with fuel for the k-1
    follow-up requests each operation returns in the world left by the request
    for Pk, and with less fuel it is still looping. *)
Theorem traversals_terminate_on_the_delta_token {W : Type} (c : Service W)
    (w w' : W) (userId mailFolderId deltaLink : string)
    (pages : list DeltaResponse) (pk : DeltaResponse) (dl : string) (fuel : nat) :
  Forall (fun p => exactlyOneToken p = true) pages ->
  lastPage pages = Some pk ->
  GetOdataDeltaLink pk = Some dl ->
  (baselineTraversal (graph c) w userId mailFolderId pages w' ->
     (length pages <= S fuel ->
        exists r, GetMailFolderMessagesDeltaLink fuel c w userId mailFolderId
                  = Return r w') /\
     (S fuel < length pages ->
        GetMailFolderMessagesDeltaLink fuel c w userId mailFolderId = OutOfFuel))
  /\
  (deltaTraversal (graph c) w deltaLink pages w' ->
     (length pages <= S fuel ->
        exists r, GetMessagesDelta fuel c w deltaLink = Return r w') /\
     (S fuel < length pages ->
        GetMessagesDelta fuel c w deltaLink = OutOfFuel)).
Proof.
  intros Hone Hlast Hdl. split; intros Ht.
  - destruct (baseline_along c w w' userId mailFolderId pages pk dl fuel
                Ht Hone Hlast Hdl) as [Hret Hloop].
    split; [intros Hfuel; eexists; exact (Hret Hfuel) | exact Hloop].
  - destruct (delta_along c w w' deltaLink pages pk dl fuel Ht Hone Hlast Hdl)
      as [Hret Hloop].
    split; [intros Hfuel; eexists; exact (Hret Hfuel) | exact Hloop].
Qed.

Lemma traversals_terminate_on_the_delta_token_witness :
  ((exists r, GetMailFolderMessagesDeltaLink 2 Stub.threePages [] "user" "F1"
              = Return r [deltaCreatedUrlTemplate; "p2"; "p3"]) /\
   GetMailFolderMessagesDeltaLink 1 Stub.threePages [] "user" "F1" = OutOfFuel)
  /\
  ((exists r, GetMessagesDelta 2 Stub.threePages [] "c0"
              = Return r ["c0"; "p2"; "p3"]) /\
   GetMessagesDelta 1 Stub.threePages [] "c0" = OutOfFuel).
Proof.
  pose (p2 := mkDeltaResponse [Stub.msg "c"] (Some "p3") None).
  pose (p3 := mkDeltaResponse [Stub.msg "d"; Stub.msg "e"] None (Some "c1")).
  pose (b1 := mkDeltaResponse [Stub.msg "a"] (Some "p2") None).
  pose (d1 := mkDeltaResponse [Stub.msg "a"; Stub.msg "b"] (Some "p2") None).
  assert (Hb : baselineTraversal (graph Stub.threePages) [] "user" "F1"
                 [b1; p2; p3] [deltaCreatedUrlTemplate; "p2"; "p3"]) by served.
  assert (Hd : deltaTraversal (graph Stub.threePages) [] "c0"
                 [d1; p2; p3] ["c0"; "p2"; "p3"]) by served.
  split; split.
  - apply (proj1 (traversals_terminate_on_the_delta_token Stub.threePages []
                    [deltaCreatedUrlTemplate; "p2"; "p3"]
                    "user" "F1" "c0" [b1; p2; p3] p3 "c1" 2
                    ltac:(each_page) eq_refl eq_refl)); [exact Hb | cbn; lia].
  - apply (proj1 (traversals_terminate_on_the_delta_token Stub.threePages []
                    [deltaCreatedUrlTemplate; "p2"; "p3"]
                    "user" "F1" "c0" [b1; p2; p3] p3 "c1" 1
                    ltac:(each_page) eq_refl eq_refl)); [exact Hb | cbn; lia].
  - apply (proj2 (traversals_terminate_on_the_delta_token Stub.threePages [] ["c0"; "p2"; "p3"]
                    "user" "F1" "c0" [d1; p2; p3] p3 "c1" 2
                    ltac:(each_page) eq_refl eq_refl)); [exact Hd | cbn; lia].
  - apply (proj2 (traversals_terminate_on_the_delta_token Stub.threePages [] ["c0"; "p2"; "p3"]
                    "user" "F1" "c0" [d1; p2; p3] p3 "c1" 1
                    ltac:(each_page) eq_refl eq_refl)); [exact Hd | cbn; lia].
Defined.

(** C4 (round atomicity).  When replaying a cursor is answered by the pages
    P1..Pj-1 (j > 1), none of which ends the round, and the request for Pj
    fails with [err], [GetMessagesDelta] returns the flattened error with an
    empty item list, not the items of P1..Pj-1, and with the empty string for
    cursor. *)
Theorem GetMessagesDelta_failed_round_returns_nothing {W : Type} (c : Service W)
    (w w1 w' : W) (deltaLink : string) (pages : list DeltaResponse)
    (q : DeltaResponse) (nextLink : string) (err : error) (fuel : nat) :
  deltaTraversal (graph c) w deltaLink pages w1 ->
  Forall (fun p => GetOdataDeltaLink p = None) pages ->
  lastPage pages = Some q ->
  GetOdataNextLink q = Some nextLink ->
  DeltaGet (graph c) w1 nextLink = (inl err, w') ->
  length pages <= fuel ->
  GetMessagesDelta fuel c w deltaLink = Return ([], "", parseError (Some err)) w' /\
  parseError (Some err) <> None.
Proof.
  intros Ht Hnone Hlast Hnext Hfail Hfuel. split.
  - exact (delta_request_fails c w w1 w' deltaLink pages q nextLink err fuel
             Ht Hnone Hlast Hnext Hfail Hfuel).
  - apply parseError_of_error.
Qed.

Lemma GetMessagesDelta_failed_round_returns_nothing_witness :
  GetMessagesDelta 1 Stub.failingSecondPage [] "c0"
  = Return ([], "", parseError (Some Stub.refused)) ["c0"; "p2"] /\
  parseError (Some Stub.refused) <> None.
Proof.
  apply (GetMessagesDelta_failed_round_returns_nothing
           Stub.failingSecondPage [] ["c0"] ["c0"; "p2"] "c0"
           [mkDeltaResponse [Stub.msg "a"] (Some "p2") None]
           (mkDeltaResponse [Stub.msg "a"] (Some "p2") None)
           "p2" Stub.refused 1).
  - served.
  - each_page.
  - reflexivity.
  - reflexivity.
  - reflexivity.
  - cbn. lia.
Defined.

(** C7 (baseline failure).  When a page request of a baseline traversal fails
    with [err], be it the opening request or the request for a next link,
    [GetMailFolderMessagesDeltaLink] stops there and returns the flattened
    error with a nil delta link. *)
Theorem GetMailFolderMessagesDeltaLink_failure_returns_no_cursor {W : Type}
    (c : Service W) (w w' : W) (userId mailFolderId : string)
    (n : nat) (err : error) (fuel : nat) :
  baselineRequestFails (graph c) w userId mailFolderId n err w' ->
  n <= fuel ->
  GetMailFolderMessagesDeltaLink fuel c w userId mailFolderId
  = Return (None, parseError (Some err)) w' /\
  parseError (Some err) <> None.
Proof.
  intros Hfail Hfuel. split.
  - exact (baseline_request_fails c w w' userId mailFolderId n err fuel Hfail Hfuel).
  - apply parseError_of_error.
Qed.

Lemma GetMailFolderMessagesDeltaLink_failure_returns_no_cursor_witness :
  GetMailFolderMessagesDeltaLink 1 Stub.failingSecondPage [] "user" "F1"
  = Return (None, parseError (Some Stub.refused)) [deltaCreatedUrlTemplate; "p2"] /\
  parseError (Some Stub.refused) <> None.
Proof.
  apply (GetMailFolderMessagesDeltaLink_failure_returns_no_cursor
           Stub.failingSecondPage [] [deltaCreatedUrlTemplate; "p2"] "user" "F1"
           1 Stub.refused 1).
  - apply (followUpRequestFails (graph Stub.failingSecondPage) [] "user" "F1"
             [mkDeltaResponse [Stub.msg "a"] (Some "p2") None]
             [deltaCreatedUrlTemplate]
             (mkDeltaResponse [Stub.msg "a"] (Some "p2") None) "p2").
    + served.
    + reflexivity.
    + reflexivity.
    + reflexivity.
  - lia.
Defined.

(** C2, as the code has it.  When the pages before the last carry exactly one
    token each and the last page carries neither token, neither operation
    loops past that page and neither returns an error:
    [GetMailFolderMessagesDeltaLink] returns a nil delta link with a nil
    error, and [GetMessagesDelta] dereferences the nil next link. *)
Theorem page_without_token_is_not_an_error {W : Type} (c : Service W) (w w' : W)
    (userId mailFolderId deltaLink : string) (pages : list DeltaResponse)
    (pk : DeltaResponse) (fuel : nat) :
  lastPage pages = Some pk ->
  GetOdataNextLink pk = None ->
  GetOdataDeltaLink pk = None ->
  Forall (fun p => exactlyOneToken p = true) (earlierPages pages) ->
  length pages <= S fuel ->
  (baselineTraversal (graph c) w userId mailFolderId pages w' ->
     GetMailFolderMessagesDeltaLink fuel c w userId mailFolderId
     = Return (None, None) w') /\
  (deltaTraversal (graph c) w deltaLink pages w' ->
     GetMessagesDelta fuel c w deltaLink = Panic).
Proof.
  exact (no_token_on_last_page c w w' userId mailFolderId deltaLink pages pk fuel).
Qed.

Lemma page_without_token_is_not_an_error_witness :
  GetMailFolderMessagesDeltaLink 1 Stub.neitherToken [] "user" "F1"
  = Return (None, None) [deltaCreatedUrlTemplate; "p2"] /\
  GetMessagesDelta 1 Stub.neitherToken [] "c0" = Panic.
Proof.
  split.
  - apply (proj1 (page_without_token_is_not_an_error
                    Stub.neitherToken [] [deltaCreatedUrlTemplate; "p2"]
                    "user" "F1" "c0"
                    [ mkDeltaResponse [Stub.msg "a"] (Some "p2") None;
                      mkDeltaResponse [Stub.msg "b"] None None ]
                    (mkDeltaResponse [Stub.msg "b"] None None) 1
                    eq_refl eq_refl eq_refl ltac:(each_page) ltac:(cbn; lia))).
    served.
  - apply (proj2 (page_without_token_is_not_an_error
                    Stub.neitherToken [] ["c0"; "p2"]
                    "user" "F1" "c0"
                    [ mkDeltaResponse [Stub.msg "a"] (Some "p2") None;
                      mkDeltaResponse [Stub.msg "b"] None None ]
                    (mkDeltaResponse [Stub.msg "b"] None None) 1
                    eq_refl eq_refl eq_refl ltac:(each_page) ltac:(cbn; lia))).
    served.
Defined.

(** C2, as stated, fails: the stub serves a first page with a next link and a
    second page with neither token.  The baseline comes back with a nil cursor
    and a nil error, and the change round panics: neither fails with an
    error. *)
Lemma page_without_token_counterexample :
  DeltaGet (graph Stub.neitherToken) ["c0"] "p2"
  = (inr (mkDeltaResponse [Stub.msg "b"] None None), ["c0"; "p2"]) /\
  GetMailFolderMessagesDeltaLink 5 Stub.neitherToken [] "user" "F1"
  = Return (None, None) [deltaCreatedUrlTemplate; "p2"] /\
  GetMessagesDelta 5 Stub.neitherToken [] "c0" = Panic /\
  ~ (failsWithError snd
       (GetMailFolderMessagesDeltaLink 5 Stub.neitherToken [] "user" "F1") = true /\
     failsWithError snd (GetMessagesDelta 5 Stub.neitherToken [] "c0") = true).
Proof.
  repeat split; try reflexivity.
  intros [H _]. vm_compute in H. discriminate.
Qed.

(** ** Properties of error flattening and of attachments *)

(** C8 (flat errors).  [parseError] maps nil to nil; an error whose chain
    holds an OData error with a message is turned into exactly that message;
    any other error is turned into its own [Error()] text; and the error
    returned by each operation of the package is nil or such a bare text. *)
Theorem errors_are_flattened (W : Type) :
  parseError None = None /\
  (forall (e : error) (me : MainError) (m : string),
     As e = Some (Some me) -> errors.GetMessage me = Some m ->
     parseError (Some e) = Some (New m)) /\
  (forall e : error,
     (forall me, As e = Some (Some me) -> errors.GetMessage me = None) ->
     parseError (Some e) = Some (New (Error e))) /\
  (forall (A B C : Type) (newCredential : string -> string -> string -> response A)
          (newProvider : A -> list string -> response B)
          (newAdapter : B -> nat -> response C)
          (newClient : C -> GraphServiceClient W) (cr : Credentials),
     isFlat (snd (NewService newCredential newProvider newAdapter newClient cr))
     = true) /\
  (forall (c : Service W) (w : W) (fuel : nat) (userId mailFolderId : string),
     isFlat (returnedError snd
               (GetMailFolderMessagesDeltaLink fuel c w userId mailFolderId))
     = true) /\
  (forall (c : Service W) (w : W) (fuel : nat) (deltaLink : string),
     isFlat (returnedError snd (GetMessagesDelta fuel c w deltaLink)) = true) /\
  (forall (c : Service W) (w : W) (userId messageId : string) (withContent : bool),
     isFlat (returnedError snd (GetAttachments c w userId messageId withContent))
     = true) /\
  (forall (c : Service W) (w : W) (userId messageId : string),
     isFlat (snd (fst (GetMessage c w userId messageId))) = true) /\
  (forall (c : Service W) (w : W) (to from subject content : string),
     isFlat (fst (SendMessage c w to from subject content)) = true).
Proof.
  repeat match goal with |- _ /\ _ => split end.
  - reflexivity.
  - intros e me m Has Hm. unfold parseError. rewrite Has, Hm. reflexivity.
  - intros e Hno. unfold parseError.
    destruct (As e) as [[me|]|]; try reflexivity.
    rewrite (Hno me eq_refl). reflexivity.
  - intros A B C f1 f2 f3 f4 cr. unfold NewService.
    destruct (f1 _ _ _) as [err|a]; [apply parseError_flat|].
    destruct (f2 _ _) as [err|b]; [apply parseError_flat|].
    destruct (f3 _ _) as [err|x]; [apply parseError_flat|reflexivity].
  - intros c w fuel userId mailFolderId. unfold GetMailFolderMessagesDeltaLink.
    destruct (ToGetRequestInformation _ _ _) as [err|ri]; [apply parseError_flat|].
    cbv zeta. destruct (Send _ _ _) as [[err|p] w1]; [apply parseError_flat|].
    apply skipExistingMessages_flat.
  - intros c w fuel deltaLink. unfold GetMessagesDelta.
    destruct (DeltaGet _ _ _) as [[err|p] w1]; [apply parseError_flat|].
    apply collectPages_flat.
  - intros c w userId messageId withContent. unfold GetAttachments.
    destruct (AttachmentsGet _ _ _ _) as [[err|value] w1]; [apply parseError_flat|].
    destruct (rangeAttachments _ _ _); reflexivity.
  - intros c w userId messageId. unfold GetMessage.
    destruct (MessageGet _ _ _ _) as [[err|m] w1]; [apply parseError_flat|reflexivity].
  - intros c w to from subject content. unfold SendMessage.
    destruct (SendMailPost _ _ _ _) as [err w1]. apply parseError_flat.
Qed.

Lemma errors_are_flattened_witness :
  parseError (Some Stub.refused) = Some (New "The sync state is invalid") /\
  parseError (Some (wrapError "dial tcp: timeout" (errorString "timeout")))
  = Some (New "dial tcp: timeout").
Proof.
  destruct (errors_are_flattened (list string)) as (_ & Hmessage & Htext & _).
  split.
  - apply (Hmessage Stub.refused (mkMainError (Some "The sync state is invalid")));
      reflexivity.
  - apply (Htext (wrapError "dial tcp: timeout" (errorString "timeout"))).
    intros me H. discriminate H.
Defined.

(** C9, as the code has it.  When every file attachment of the list served
    has a name and a content type, [GetAttachments] returns without error one
    entry per file attachment of the list, in the order of the list, each with
    the name and content type of its file attachment; attachments of the other
    kinds are passed over. *)
Theorem GetAttachments_keeps_the_file_attachments {W : Type} (c : Service W)
    (w w' : W) (userId messageId : string) (withContent : bool)
    (value : list Attachment) :
  AttachmentsGet (graph c) w userId messageId = (inr value, w') ->
  forallb hasNameAndContentType value = true ->
  exists attachments,
    GetAttachments c w userId messageId withContent = Return (attachments, None) w' /\
    Forall2 sameFile (filter isFileAttachment value) attachments.
Proof.
  intros Hget Hnamed. unfold GetAttachments. rewrite Hget.
  destruct (rangeAttachments_total withContent value [] Hnamed) as [result Hr].
  rewrite Hr. exists result. split; [reflexivity|].
  destruct (rangeAttachments_appends withContent value [] result Hr)
    as (added & -> & Hall).
  cbn [app]. clear -Hall.
  induction Hall as [|att fa atts fas [Hsame _] _ IH]; constructor; assumption.
Qed.

Lemma GetAttachments_keeps_the_file_attachments_witness :
  exists attachments,
    GetAttachments Stub.mailbox [] "user" "m1" true = Return (attachments, None) ["m1"] /\
    Forall2 sameFile
      [ fileAttachment (Some "a.txt") (Some "text/plain") (Some [Byte.x68; Byte.x69]);
        fileAttachment (Some "b.bin") (Some "application/octet-stream") None ]
      attachments.
Proof.
  apply (GetAttachments_keeps_the_file_attachments
           Stub.mailbox [] ["m1"] "user" "m1" true Stub.mixedAttachments);
    reflexivity.
Defined.

(** C9, as stated, fails: the stub serves a list whose only attachment is a
    file attachment without a name; [GetAttachments] dereferences the nil name
    and returns nothing. *)
Lemma GetAttachments_nameless_counterexample :
  AttachmentsGet (graph Stub.mailbox) [] "user" "m2"
  = (inr [fileAttachment None (Some "text/plain") (Some [Byte.x68])], ["m2"]) /\
  GetAttachments Stub.mailbox [] "user" "m2" false = Panic /\
  GetAttachments Stub.mailbox [] "user" "m2" true = Panic /\
  ~ (exists withContent attachments w',
       GetAttachments Stub.mailbox [] "user" "m2" withContent
       = Return (attachments, None) w').
Proof.
  repeat split; try reflexivity.
  intros ([|] & attachments & w' & H); discriminate H.
Qed.

(** C10 (content only when asked).  When [GetAttachments] returns without
    error, the remote API has served a list, and the entries returned stand
    one for one for its file attachments, with their names and content types;
    the content of an entry is the bytes of its file attachment when
    [withContent] is true and nil when it is false, so that an entry has
    content only under [withContent = true]. *)
Theorem GetAttachments_content_only_when_asked {W : Type} (c : Service W)
    (w w' : W) (userId messageId : string) (withContent : bool)
    (attachments : list FileAttachment) :
  GetAttachments c w userId messageId withContent = Return (attachments, None) w' ->
  (exists value,
     AttachmentsGet (graph c) w userId messageId = (inr value, w') /\
     Forall2 (fun att fa => sameFile att fa /\ contentAsAsked withContent att fa)
             (filter isFileAttachment value) attachments) /\
  (withContent = false -> Forall (fun fa => Content fa = None) attachments) /\
  (forall fa, In fa attachments -> Content fa <> None -> withContent = true).
Proof.
  unfold GetAttachments. intros H.
  destruct (AttachmentsGet (graph c) w userId messageId) as [[err|value] w1].
  { injection H as _ Herr _. destruct (parseError_of_error err Herr). }
  destruct (rangeAttachments withContent value []) as [result|] eqn:Hr;
    [|discriminate].
  injection H as -> ->.
  destruct (rangeAttachments_appends withContent value [] attachments Hr)
    as (added & -> & Hall).
  cbn [app] in *.
  assert (Hnil : withContent = false -> Forall (fun fa => Content fa = None) added).
  { intros ->. clear -Hall.
    induction Hall as [|att fa atts fas [_ Hc] _ IH]; constructor; [|exact IH].
    destruct att; cbn in Hc; [exact Hc | contradiction | contradiction]. }
  split; [exists value; split; [reflexivity | exact Hall]|].
  split; [exact Hnil|].
  intros fa Hin Hcontent. destruct withContent; [reflexivity|].
  exfalso. apply Hcontent.
  exact (proj1 (Forall_forall _ _) (Hnil eq_refl) fa Hin).
Qed.

Lemma GetAttachments_content_only_when_asked_witness :
  GetAttachments Stub.mailbox [] "user" "m1" false
  = Return ([ mkFileAttachment "a.txt" "text/plain" None;
              mkFileAttachment "b.bin" "application/octet-stream" None ], None)
           ["m1"] /\
  Forall (fun fa => Content fa = None)
    [ mkFileAttachment "a.txt" "text/plain" None;
      mkFileAttachment "b.bin" "application/octet-stream" None ].
Proof.
  split; [reflexivity|].
  apply (proj1 (proj2 (GetAttachments_content_only_when_asked
                         Stub.mailbox [] ["m1"] "user" "m1" false
                         [ mkFileAttachment "a.txt" "text/plain" None;
                           mkFileAttachment "b.bin" "application/octet-stream" None ]
                         eq_refl))).
  reflexivity.
Defined.

(** ** The scenario of the specification, and a server that never ends *)

Example scenario_baseline :
  GetMailFolderMessagesDeltaLink 1 Stub.scenario [] "user" "F1"
  = Return (Some "d1", None) [deltaCreatedUrlTemplate; "p2"].
Proof. reflexivity. Qed.

Example scenario_round :
  GetMessagesDelta 0 Stub.scenario [] "d1"
  = Return ([Stub.msg "msg-1"; Stub.msg "msg-2"], "d2", None) ["d1"].
Proof. reflexivity. Qed.

Example mixed_attachments_with_content :
  GetAttachments Stub.mailbox [] "user" "m1" true
  = Return ([ mkFileAttachment "a.txt" "text/plain" (Some [Byte.x68; Byte.x69]);
              mkFileAttachment "b.bin" "application/octet-stream" None ], None)
           ["m1"].
Proof. reflexivity. Qed.

(** Against a remote API whose pages always point to a further page, no
    amount of fuel lets the round return. *)
Lemma endless_round_never_returns (fuel : nat) :
  GetMessagesDelta fuel Stub.endless [] "p1" = OutOfFuel.
Proof.
  unfold GetMessagesDelta. cbn [DeltaGet graph Stub.endless Stub.service Stub.client].
  change (Stub.answer "p1" _) with (Stub.page [Stub.msg "a"] (Some "p1") None).
  cbv beta iota. unfold Stub.page.
  generalize ([] ++ ["p1"]) as w.
  generalize ([] ++ GetValue (mkDeltaResponse [Stub.msg "a"] (Some "p1") None)) as acc.
  induction fuel as [|fuel IH]; intros acc w; [reflexivity|].
  cbn [collectPages GetOdataDeltaLink GetOdataNextLink DeltaGet].
  change (Stub.answer "p1" _) with (Stub.page [Stub.msg "a"] (Some "p1") None).
  cbv beta iota. unfold Stub.page. apply IH.
Qed.

(** ** Further facts about the traversal loops *)

Section Rounds.

Context {W : Type}.
Variable c : Service W.

(** [collectPages] walks the pages without a delta link and ends on the first
    page that has one, whatever next links that page carries. *)
Lemma collectPages_walks (rest : list DeltaResponse) :
  forall (fuel : nat) (w : W) (p : DeltaResponse) (acc : list Message)
         (w' : W) (dl : string),
    follows (graph c) w p rest w' ->
    Forall (fun q => GetOdataDeltaLink q = None) (pagesBefore p rest) ->
    GetOdataDeltaLink (finalPage p rest) = Some dl ->
    length rest <= fuel ->
    collectPages fuel (graph c) w p acc = Return (acc ++ allItems rest, dl, None) w'.
Proof.
  induction rest as [|q rest IH]; intros fuel w p acc w' dl Hf Hnone Hdl Hfuel.
  - cbn in Hf, Hdl. subst w'. unfold allItems. cbn. rewrite app_nil_r.
    destruct fuel; cbn; rewrite Hdl; reflexivity.
  - cbn [follows] in Hf. destruct Hf as (nextLink & w1 & Hnext & Hget & Hf).
    cbn [pagesBefore] in Hnone. inversion Hnone as [|? ? Hp Hrest]; subst.
    destruct fuel as [|fuel]; [cbn in Hfuel; lia|].
    cbn [collectPages]. rewrite Hp, Hnext, Hget.
    rewrite (IH fuel w1 q (acc ++ GetValue q) w' dl Hf Hrest Hdl).
    + unfold allItems. cbn. rewrite app_assoc. reflexivity.
    + cbn in Hfuel. lia.
Qed.

Lemma collectPages_walked (fuel : nat) :
  forall (w : W) (p : DeltaResponse) (acc items : list Message) (dl : string)
         (w' : W),
    collectPages fuel (graph c) w p acc = Return (items, dl, None) w' ->
    exists rest,
      follows (graph c) w p rest w' /\
      Forall (fun q => GetOdataDeltaLink q = None) (pagesBefore p rest) /\
      GetOdataDeltaLink (finalPage p rest) = Some dl /\
      items = acc ++ allItems rest /\
      length rest <= fuel.
Proof.
  induction fuel as [|fuel IH]; intros w p acc items dl w' H;
    cbn [collectPages] in H;
    destruct (GetOdataDeltaLink p) as [d|] eqn:Hd.
  1, 3: injection H as <- <- <-; exists []; cbn;
        rewrite app_nil_r; repeat split; [constructor | assumption | lia].
  - destruct (GetOdataNextLink p); discriminate.
  - destruct (GetOdataNextLink p) as [nextLink|] eqn:Hn; [|discriminate].
    destruct (DeltaGet (graph c) w nextLink) as [[err|q] w1] eqn:Hget.
    + injection H as _ _ Herr _. destruct (parseError_of_error err Herr).
    + apply IH in H. destruct H as (rest & Hf & Hnone & Hdl & -> & Hlen).
      exists (q :: rest). cbn [follows finalPage pagesBefore length].
      repeat split.
      * exists nextLink, w1. repeat split; assumption.
      * constructor; assumption.
      * exact Hdl.
      * unfold allItems. cbn. rewrite app_assoc. reflexivity.
      * lia.
Qed.



(** The error return of [collectPages]: a follow-up request has failed. *)
Lemma collectPages_failed (fuel : nat) :
  forall (w : W) (p : DeltaResponse) (acc items : list Message)
         (cursor : string) (e : error) (w' : W),
    collectPages fuel (graph c) w p acc = Return (items, cursor, Some e) w' ->
    items = [] /\ cursor = "" /\
    exists rest wf nextLink err,
      follows (graph c) w p rest wf /\
      Forall (fun q => GetOdataDeltaLink q = None) (p :: rest) /\
      GetOdataNextLink (finalPage p rest) = Some nextLink /\
      DeltaGet (graph c) wf nextLink = (inl err, w') /\
      parseError (Some err) = Some e /\
      length rest < fuel.
Proof.
  induction fuel as [|fuel IH]; intros w p acc items cursor e w' H;
    cbn [collectPages] in H;
    (destruct (GetOdataDeltaLink p) as [d|] eqn:Hd; [discriminate|]);
    (destruct (GetOdataNextLink p) as [nextLink|] eqn:Hn; [|discriminate]);
    [discriminate|].
  destruct (DeltaGet (graph c) w nextLink) as [[err|q] w1] eqn:Hget.
  - injection H as <- <- He <-. repeat split.
    exists [], w, nextLink, err. cbn. repeat split; try assumption.
    + constructor; [assumption | constructor].
    + lia.
  - apply IH in H.
    destruct H as (-> & -> & rest & wf & nl & err & Hf & Hnone & Hnl & Hfail & He & Hlen).
    repeat split.
    exists (q :: rest), wf, nl, err. cbn [follows finalPage length].
    repeat split; try assumption.
    + exists nextLink, w1. repeat split; assumption.
    + constructor; assumption.
    + lia.
Qed.

(** More fuel does not change what a loop has come to. *)
Lemma collectPages_more_fuel (fuel : nat) :
  forall (fuel' : nat) (w : W) (p : DeltaResponse) (acc : list Message),
    fuel <= fuel' ->
    collectPages fuel (graph c) w p acc <> OutOfFuel ->
    collectPages fuel' (graph c) w p acc = collectPages fuel (graph c) w p acc.
Proof.
  induction fuel as [|fuel IH]; intros fuel' w p acc Hle H.
  - destruct fuel' as [|fuel']; [reflexivity|].
    cbn [collectPages] in *.
    destruct (GetOdataDeltaLink p); [reflexivity|].
    destruct (GetOdataNextLink p); [|reflexivity].
    contradiction H; reflexivity.
  - destruct fuel' as [|fuel']; [lia|].
    cbn [collectPages] in *.
    destruct (GetOdataDeltaLink p); [reflexivity|].
    destruct (GetOdataNextLink p) as [nextLink|]; [|reflexivity].
    destruct (DeltaGet (graph c) w nextLink) as [[err|q] w1]; [reflexivity|].
    apply IH; [lia | exact H].
Qed.

Lemma skipExistingMessages_more_fuel (fuel : nat) :
  forall (fuel' : nat) (w : W) (p : DeltaResponse),
    fuel <= fuel' ->
    skipExistingMessages fuel (graph c) w p <> OutOfFuel ->
    skipExistingMessages fuel' (graph c) w p = skipExistingMessages fuel (graph c) w p.
Proof.
  induction fuel as [|fuel IH]; intros fuel' w p Hle H.
  - destruct fuel' as [|fuel']; [reflexivity|].
    cbn [skipExistingMessages] in *.
    destruct (GetOdataNextLink p); [|reflexivity].
    contradiction H; reflexivity.
  - destruct fuel' as [|fuel']; [lia|].
    cbn [skipExistingMessages] in *.
    destruct (GetOdataNextLink p) as [nextLink|]; [|reflexivity].
    destruct (DeltaGet (graph c) w nextLink) as [[err|q] w1]; [reflexivity|].
    apply IH; [lia | exact H].
Qed.


(** The error return of [skipExistingMessages]. *)
Lemma skipExistingMessages_failed (fuel : nat) :
  forall (w : W) (p : DeltaResponse) (cursor : option string) (e : error) (w' : W),
    skipExistingMessages fuel (graph c) w p = Return (cursor, Some e) w' ->
    cursor = None /\
    exists rest wf nextLink err,
      follows (graph c) w p rest wf /\
      GetOdataNextLink (finalPage p rest) = Some nextLink /\
      DeltaGet (graph c) wf nextLink = (inl err, w') /\
      parseError (Some err) = Some e /\
      length rest < fuel.
Proof.
  induction fuel as [|fuel IH]; intros w p cursor e w' H;
    cbn [skipExistingMessages] in H;
    (destruct (GetOdataNextLink p) as [nextLink|] eqn:Hn; [|discriminate]);
    [discriminate|].
  destruct (DeltaGet (graph c) w nextLink) as [[err|q] w1] eqn:Hget.
  - injection H as <- He <-. split; [reflexivity|].
    exists [], w, nextLink, err. cbn. repeat split; try assumption. lia.
  - apply IH in H.
    destruct H as (-> & rest & wf & nl & err & Hf & Hnl & Hfail & He & Hlen).
    split; [reflexivity|].
    exists (q :: rest), wf, nl, err. cbn [follows finalPage length].
    repeat split; try assumption.
    + exists nextLink, w1. repeat split; assumption.
    + lia.
Qed.

End Rounds.

(** ** What each outcome of the two traversals means *)

(** A change round returns without error exactly when the pages served form a
    traversal whose pages before the last have no delta link and whose last
    page has one; the items are then those of all the pages in order and the
    cursor is that delta link.  A next link on the last page is not followed,
    and no page needs to carry exactly one token. *)
Theorem GetMessagesDelta_returns_iff {W : Type} (c : Service W) (w w' : W)
    (deltaLink : string) (items : list Message) (dl : string) (fuel : nat) :
  GetMessagesDelta fuel c w deltaLink = Return (items, dl, None) w' <->
  exists pages pk,
    deltaTraversal (graph c) w deltaLink pages w' /\
    Forall (fun p => GetOdataDeltaLink p = None) (earlierPages pages) /\
    lastPage pages = Some pk /\
    GetOdataDeltaLink pk = Some dl /\
    items = allItems pages /\
    length pages <= S fuel.
Proof.
  unfold GetMessagesDelta. split.
  - intros H.
    destruct (DeltaGet (graph c) w deltaLink) as [[err|p] w1] eqn:Hget.
    { injection H as _ _ Herr _. destruct (parseError_of_error err Herr). }
    apply collectPages_walked in H.
    destruct H as (rest & Hf & Hnone & Hdl & -> & Hlen).
    exists (p :: rest), (finalPage p rest). cbn [deltaTraversal earlierPages lastPage].
    repeat split; try assumption.
    + exists w1. split; [exact Hget | exact Hf].
    + cbn. lia.
  - intros (pages & pk & Ht & Hnone & Hlast & Hdl & -> & Hlen).
    destruct pages as [|p rest]; [contradiction|].
    destruct Ht as (w1 & Hget & Hf). injection Hlast as <-. rewrite Hget.
    rewrite (collectPages_walks c rest fuel w1 p _ w' dl Hf Hnone Hdl).
    + reflexivity.
    + cbn in Hlen. lia.
Qed.

Lemma GetMessagesDelta_returns_iff_witness :
  GetMessagesDelta 2 Stub.threePages [] "c0"
  = Return (allItems
              [ mkDeltaResponse [Stub.msg "a"; Stub.msg "b"] (Some "p2") None;
                mkDeltaResponse [Stub.msg "c"] (Some "p3") None;
                mkDeltaResponse [Stub.msg "d"; Stub.msg "e"] None (Some "c1") ],
            "c1", None) ["c0"; "p2"; "p3"].
Proof.
  apply (proj2 (GetMessagesDelta_returns_iff Stub.threePages [] ["c0"; "p2"; "p3"]
                  "c0" _ "c1" 2)).
  exists [ mkDeltaResponse [Stub.msg "a"; Stub.msg "b"] (Some "p2") None;
           mkDeltaResponse [Stub.msg "c"] (Some "p3") None;
           mkDeltaResponse [Stub.msg "d"; Stub.msg "e"] None (Some "c1") ],
         (mkDeltaResponse [Stub.msg "d"; Stub.msg "e"] None (Some "c1")).
  split; [served|]. split; [each_page|].
  repeat split. cbn. lia.
Defined.

(** The baseline returns without error exactly when the pages served form a
    traversal whose last page has no next link; what it returns is the delta
    link of that page, nil included.  A delta link on an earlier page is not
    looked at. *)
Theorem GetMailFolderMessagesDeltaLink_returns_iff {W : Type} (c : Service W)
    (w w' : W) (userId mailFolderId : string) (cursor : option string)
    (fuel : nat) :
  GetMailFolderMessagesDeltaLink fuel c w userId mailFolderId
  = Return (cursor, None) w' <->
  exists pages pk,
    baselineTraversal (graph c) w userId mailFolderId pages w' /\
    lastPage pages = Some pk /\
    GetOdataNextLink pk = None /\
    cursor = GetOdataDeltaLink pk /\
    length pages <= S fuel.
Proof.
  split.
  - intros H.
    destruct (firstBaselinePage (graph c) w userId mailFolderId)
      as [[err|p] w1] eqn:Hfirst.
    { rewrite (firstBaselinePage_refused c w w1 _ _ err fuel Hfirst) in H.
      injection H as _ Herr _. destruct (parseError_of_error err Herr). }
    rewrite (firstBaselinePage_served c w w1 _ _ p fuel Hfirst) in H.
    apply skipExistingMessages_returned in H.
    destruct H as (rest & Hf & Hnone & -> & Hlen).
    exists (p :: rest), (finalPage p rest). cbn [baselineTraversal lastPage].
    repeat split; try assumption.
    + exists w1. split; [exact Hfirst | exact Hf].
    + cbn. lia.
  - intros (pages & pk & Ht & Hlast & Hnone & -> & Hlen).
    destruct pages as [|p rest]; [contradiction|].
    destruct Ht as (w1 & Hfirst & Hf). injection Hlast as <-.
    rewrite (firstBaselinePage_served c w w1 _ _ p fuel Hfirst).
    apply (skipExistingMessages_returns (graph c) rest fuel w1 p w' Hf Hnone).
    cbn in Hlen. lia.
Qed.

Lemma GetMailFolderMessagesDeltaLink_returns_iff_witness :
  exists pages pk,
    baselineTraversal (graph Stub.scenario) [] "user" "F1" pages
      [deltaCreatedUrlTemplate; "p2"] /\
    lastPage pages = Some pk /\
    GetOdataNextLink pk = None /\
    Some "d1" = GetOdataDeltaLink pk /\
    length pages <= 2.
Proof.
  apply (proj1 (GetMailFolderMessagesDeltaLink_returns_iff Stub.scenario []
                  [deltaCreatedUrlTemplate; "p2"] "user" "F1" (Some "d1") 1)).
  reflexivity.
Defined.




(** A change round returns an error exactly when a page request fails, be it
    the request that replays the cursor or the request for a next link after
    pages without a delta link; the error is the flattened error of that
    request, and it comes with no item and the empty cursor, whatever the
    earlier pages held. *)
Theorem GetMessagesDelta_fails_iff {W : Type} (c : Service W) (w w' : W)
    (deltaLink : string) (items : list Message) (cursor : string) (e : error)
    (fuel : nat) :
  GetMessagesDelta fuel c w deltaLink = Return (items, cursor, Some e) w' <->
  items = [] /\ cursor = "" /\
  exists n err,
    deltaRequestFails (graph c) w deltaLink n err w' /\
    parseError (Some err) = Some e /\
    n <= fuel.
Proof.
  split.
  - unfold GetMessagesDelta. intros H.
    destruct (DeltaGet (graph c) w deltaLink) as [[err|p] w1] eqn:Hget.
    + injection H as <- <- He <-. repeat split.
      exists 0, err. repeat split; [|exact He|lia].
      apply replayRequestFails. exact Hget.
    + apply collectPages_failed in H.
      destruct H as (-> & -> & rest & wf & nl & err & Hf & Hnone & Hnl & Hfail & He & Hlen).
      repeat split.
      exists (length (p :: rest)), err. repeat split; [|exact He|cbn; lia].
      apply (nextPageRequestFails (graph c) w deltaLink (p :: rest) wf
               (finalPage p rest) nl err w'); try assumption.
      * exists w1. split; assumption.
      * reflexivity.
  - intros (-> & -> & n & err & Hfail & He & Hn). rewrite <- He.
    destruct Hfail as [err w' Hget | pages w1 q nextLink err w' Ht Hnone Hlast Hnext Hget].
    + unfold GetMessagesDelta. rewrite Hget. reflexivity.
    + exact (delta_request_fails c w w1 w' deltaLink pages q nextLink err fuel
               Ht Hnone Hlast Hnext Hget Hn).
Qed.

Lemma GetMessagesDelta_fails_iff_witness :
  GetMessagesDelta 1 Stub.failingSecondPage [] "c0"
  = Return ([], "", Some (errorString "The sync state is invalid")) ["c0"; "p2"].
Proof.
  apply (proj2 (GetMessagesDelta_fails_iff Stub.failingSecondPage [] ["c0"; "p2"]
                  "c0" [] "" (errorString "The sync state is invalid") 1)).
  repeat split. exists 1, Stub.refused. repeat split; [|lia].
  apply (nextPageRequestFails (graph Stub.failingSecondPage) [] "c0"
           [mkDeltaResponse [Stub.msg "a"] (Some "p2") None] ["c0"]
           (mkDeltaResponse [Stub.msg "a"] (Some "p2") None) "p2").
  - served.
  - each_page.
  - reflexivity.
  - reflexivity.
  - reflexivity.
Defined.

(** The baseline returns an error exactly when a page request fails, be it the
    opening request or the request for a next link; the error is the flattened
    error of that request and the cursor returned with it is nil. *)
Theorem GetMailFolderMessagesDeltaLink_fails_iff {W : Type} (c : Service W)
    (w w' : W) (userId mailFolderId : string) (cursor : option string)
    (e : error) (fuel : nat) :
  GetMailFolderMessagesDeltaLink fuel c w userId mailFolderId
  = Return (cursor, Some e) w' <->
  cursor = None /\
  exists n err,
    baselineRequestFails (graph c) w userId mailFolderId n err w' /\
    parseError (Some err) = Some e /\
    n <= fuel.
Proof.
  split.
  - intros H.
    destruct (firstBaselinePage (graph c) w userId mailFolderId)
      as [[err|p] w1] eqn:Hfirst.
    + rewrite (firstBaselinePage_refused c w w1 _ _ err fuel Hfirst) in H.
      injection H as <- He <-. split; [reflexivity|].
      exists 0, err. repeat split; [|exact He|lia].
      apply openingRequestFails. exact Hfirst.
    + rewrite (firstBaselinePage_served c w w1 _ _ p fuel Hfirst) in H.
      apply skipExistingMessages_failed in H.
      destruct H as (-> & rest & wf & nl & err & Hf & Hnl & Hfail & He & Hlen).
      split; [reflexivity|].
      exists (length (p :: rest)), err. repeat split; [|exact He|cbn; lia].
      apply (followUpRequestFails (graph c) w userId mailFolderId (p :: rest) wf
               (finalPage p rest) nl err w'); try assumption.
      * exists w1. split; assumption.
      * reflexivity.
  - intros (-> & n & err & Hfail & He & Hn). rewrite <- He.
    exact (baseline_request_fails c w w' userId mailFolderId n err fuel Hfail Hn).
Qed.

Lemma GetMailFolderMessagesDeltaLink_fails_iff_witness :
  None = (None : option string) /\
  exists n err,
    baselineRequestFails (graph Stub.failingSecondPage) [] "" "F1" n err [] /\
    parseError (Some err) = Some (errorString "user id is empty") /\
    n <= 0.
Proof.
  apply (proj1 (GetMailFolderMessagesDeltaLink_fails_iff Stub.failingSecondPage
                  [] [] "" "F1" None (errorString "user id is empty") 0)).
  reflexivity.
Defined.

(** What an operation has come to within some number of follow-up requests,
    be it a return or a panic, it comes to with any larger number: the
    result of a traversal does not depend on the bound put on it. *)
Theorem traversal_results_are_stable {W : Type} (c : Service W) (w : W)
    (userId mailFolderId deltaLink : string) (fuel fuel' : nat) :
  fuel <= fuel' ->
  (GetMailFolderMessagesDeltaLink fuel c w userId mailFolderId <> OutOfFuel ->
   GetMailFolderMessagesDeltaLink fuel' c w userId mailFolderId
   = GetMailFolderMessagesDeltaLink fuel c w userId mailFolderId) /\
  (GetMessagesDelta fuel c w deltaLink <> OutOfFuel ->
   GetMessagesDelta fuel' c w deltaLink = GetMessagesDelta fuel c w deltaLink).
Proof.
  intros Hle. split.
  - unfold GetMailFolderMessagesDeltaLink.
    destruct (ToGetRequestInformation (graph c) userId mailFolderId) as [err|ri];
      [reflexivity|].
    cbv zeta. destruct (Send (graph c) w _) as [[err|p] w1]; [reflexivity|].
    apply skipExistingMessages_more_fuel. exact Hle.
  - unfold GetMessagesDelta.
    destruct (DeltaGet (graph c) w deltaLink) as [[err|p] w1]; [reflexivity|].
    apply collectPages_more_fuel. exact Hle.
Qed.

Lemma traversal_results_are_stable_witness :
  GetMailFolderMessagesDeltaLink 7 Stub.threePages [] "user" "F1"
  = GetMailFolderMessagesDeltaLink 2 Stub.threePages [] "user" "F1" /\
  GetMessagesDelta 7 Stub.neitherToken [] "c0"
  = GetMessagesDelta 1 Stub.neitherToken [] "c0".
Proof.
  split.
  - apply (proj1 (traversal_results_are_stable Stub.threePages [] "user" "F1" "c0"
                    2 7 ltac:(lia))).
    discriminate.
  - apply (proj2 (traversal_results_are_stable Stub.neitherToken [] "user" "F1" "c0"
                    1 7 ltac:(lia))).
    discriminate.
Defined.

(** ** Further facts about errors and attachments *)

(** [parseError] returns nil for nil only, so that a failure is never
    swallowed, and flattening a flattened error changes nothing. *)
Theorem parseError_keeps_nil_and_is_idempotent (err : option error) :
  (parseError err = None <-> err = None) /\
  parseError (parseError err) = parseError err.
Proof.
  destruct err as [e|]; [|split; [split|]; reflexivity].
  split.
  - split; [intros H; destruct (parseError_of_error e H) | discriminate].
  - unfold parseError at 2 3.
    destruct (As e) as [[me|]|]; [destruct (errors.GetMessage me)| |]; reflexivity.
Qed.


(** Without content the loop builds what it builds with content, the contents
    taken off. *)
Lemma rangeAttachments_withoutContent (value : list Attachment) :
  forall attachments : list FileAttachment,
    rangeAttachments false value (map withoutContent attachments)
    = option_map (map withoutContent) (rangeAttachments true value attachments).
Proof.
  induction value as [|att value IH]; intros attachments; [reflexivity|].
  destruct att as [[name|] [contentType|] contentBytes | name | name];
    cbn [rangeAttachments]; try apply IH; try reflexivity.
  cbn [Name ContentType]. rewrite <- IH, map_app. reflexivity.
Qed.



(** Asking for no content changes nothing but the contents: on the same
    request, [GetAttachments] with [withContent = false] comes to what it
    comes to with [withContent = true], with the content of every entry
    replaced by nil. *)
Theorem GetAttachments_without_content {W : Type} (c : Service W) (w : W)
    (userId messageId : string) :
  GetAttachments c w userId messageId false
  = match GetAttachments c w userId messageId true with
    | Return (attachments, err) w' => Return (map withoutContent attachments, err) w'
    | Panic => Panic
    | OutOfFuel => OutOfFuel
    end.
Proof.
  unfold GetAttachments.
  destruct (AttachmentsGet (graph c) w userId messageId) as [[err|value] w1];
    [reflexivity|].
  change (@nil FileAttachment) with (map withoutContent []) at 1.
  rewrite rangeAttachments_withoutContent.
  destruct (rangeAttachments true value []); reflexivity.
Qed.


(** [SendMessage] reports success exactly when the post of the message was
    accepted, and leaves the world as the post left it; what it posts, from
    [from], is one message with the subject, an HTML body with the content,
    and [to] for only recipient. *)
Theorem SendMessage_reports_the_post {W : Type} (c : Service W) (w : W)
    (to from subject content : string) :
  let posted :=
    SendMailPost (graph c) w from
      (mkMessage None (Some subject) (Some "html") (Some content) [to]) in
  (fst (SendMessage c w to from subject content) = None <-> fst posted = None) /\
  snd (SendMessage c w to from subject content) = snd posted.
Proof.
  unfold SendMessage. cbv zeta.
  destruct (SendMailPost (graph c) w from _) as [err w1]. cbn [fst snd].
  split; [|reflexivity].
  destruct err as [e|]; [|split; reflexivity].
  split; [intros H; destruct (parseError_of_error e H) | discriminate].
Qed.

(** ** The command *)

Lemma parseError_text (err : error) :
  exists text, parseError (Some err) = Some (errorString text).
Proof.
  unfold parseError.
  destruct (As err) as [[me|]|]; [destruct (errors.GetMessage me)| |];
    eexists; reflexivity.
Qed.

Lemma NewService_outcomes {W A B C : Type}
    (newCredential : string -> string -> string -> response A)
    (newProvider : A -> list string -> response B)
    (newAdapter : B -> nat -> response C)
    (newClient : C -> GraphServiceClient W) (cr : Credentials) :
  (exists s, NewService newCredential newProvider newAdapter newClient cr
             = (Some s, None)) \/
  (exists text, NewService newCredential newProvider newAdapter newClient cr
                = (None, Some (errorString text))).
Proof.
  unfold NewService.
  destruct (newCredential _ _ _) as [err|a];
    [right; destruct (parseError_text err) as [text ->]; exists text; reflexivity|].
  destruct (newProvider _ _) as [err|b];
    [right; destruct (parseError_text err) as [text ->]; exists text; reflexivity|].
  destruct (newAdapter _ _) as [err|x];
    [right; destruct (parseError_text err) as [text ->]; exists text; reflexivity|].
  left. eexists. reflexivity.
Qed.

Section CommandRuns.

Context {W : Type}.
Context {ClientSecretCredential AuthenticationProvider RequestAdapter Time : Type}.
Variable Getenv : string -> string.
Variable newCredential : string -> string -> string -> response ClientSecretCredential.
Variable newProvider :
  ClientSecretCredential -> list string -> response AuthenticationProvider.
Variable newAdapter : AuthenticationProvider -> nat -> response RequestAdapter.
Variable newClient : RequestAdapter -> GraphServiceClient W.
Variable GetReceivedDateTime : Message -> option Time.
Variable Format : Time -> string -> string.

(** When the service cannot be made, [main] writes the one line that reports
    the flattened error, sends nothing to the remote API and returns. *)
Theorem main_without_service (w : W) :
  fst (NewService newCredential newProvider newAdapter newClient
         (mkCredentials (Getenv "CLIENT_ID") (Getenv "CLIENT_SECRET")
                        (Getenv "TENANT_ID"))) = None ->
  exists text,
    snd (NewService newCredential newProvider newAdapter newClient
           (mkCredentials (Getenv "CLIENT_ID") (Getenv "CLIENT_SECRET")
                          (Getenv "TENANT_ID")))
    = Some (errorString text) /\
    main Getenv newCredential newProvider newAdapter newClient
         GetReceivedDateTime Format w
    = ([("Error creating service: " ++ text ++ lineFeed)%string], returned, w).
Proof.
  unfold main.
  destruct (NewService_outcomes newCredential newProvider newAdapter newClient
              (mkCredentials (Getenv "CLIENT_ID") (Getenv "CLIENT_SECRET")
                             (Getenv "TENANT_ID")))
    as [[s ->] | [text ->]]; cbn [fst snd].
  - discriminate.
  - intros _. exists text. split; reflexivity.
Qed.

(** When the service is made and the request for the message fails, [main]
    writes the one line that reports the flattened error of the request (the
    message of the OData error when there is one) and returns: no detail of
    any message is written. *)
Theorem main_reports_the_failed_request (w w' : W) (s : Service W) (err : error) :
  NewService newCredential newProvider newAdapter newClient
    (mkCredentials (Getenv "CLIENT_ID") (Getenv "CLIENT_SECRET")
                   (Getenv "TENANT_ID")) = (Some s, None) ->
  MessageGet (graph s) w (Getenv "USER_ID") (Getenv "MESSAGE_ID") = (inl err, w') ->
  exists text,
    parseError (Some err) = Some (errorString text) /\
    main Getenv newCredential newProvider newAdapter newClient
         GetReceivedDateTime Format w
    = ([("Error getting message: " ++ text ++ lineFeed)%string], returned, w').
Proof.
  intros Hnew Hget. unfold main. rewrite Hnew. unfold GetMessage. rewrite Hget.
  destruct (parseError_text err) as [text ->]. exists text. split; reflexivity.
Qed.


End CommandRuns.

Lemma main_without_service_witness :
  exists text,
    snd (NewService StubCommand.newCredential StubCommand.newProvider
           StubCommand.newAdapter StubCommand.newClient
           (mkCredentials "" "" ""))
    = Some (errorString text) /\
    main (fun _ => "") StubCommand.newCredential StubCommand.newProvider
         StubCommand.newAdapter StubCommand.newClient
         StubCommand.received StubCommand.format []
    = ([("Error creating service: " ++ text ++ lineFeed)%string], returned, []).
Proof.
  apply (main_without_service (fun _ => "") StubCommand.newCredential
           StubCommand.newProvider StubCommand.newAdapter StubCommand.newClient
           StubCommand.received StubCommand.format []).
  reflexivity.
Defined.

Lemma main_reports_the_failed_request_witness :
  exists text,
    parseError (Some Stub.refused) = Some (errorString text) /\
    StubCommand.run "m4"
    = ([("Error getting message: " ++ text ++ lineFeed)%string], returned, ["m4"]).
Proof.
  unfold StubCommand.run.
  eapply (main_reports_the_failed_request (StubCommand.environmentFor "m4")
            StubCommand.newCredential StubCommand.newProvider
            StubCommand.newAdapter StubCommand.newClient
            StubCommand.received StubCommand.format [] ["m4"]).
  - reflexivity.
  - reflexivity.
Defined.


Example command_writes_the_message :
  StubCommand.run "m1"
  = ([("Subject: Hello" ++ lineFeed)%string;
      ("Body: <p>Hi</p>" ++ lineFeed)%string;
      ("Received: 2023-11-14 22:13:20" ++ lineFeed)%string], returned, ["m1"]).
Proof. reflexivity. Qed.
